(** * Automate: snapshot persistence, unique names, command execution and
      the Arduino service, embedded from [src/automate/system.py] and
      [src/automate/extensions/arduino/arduino_service.py]. *)

From stdpp Require Import gmap strings list pretty.
From Stdlib Require Import ZArith QArith Ascii.

Local Open Scope string_scope.
Local Open Scope Z_scope.

(** ** Python-level basics shared by all modules *)

(** The exceptions that the embedded code raises or catches. *)
Inductive exn :=
| FileNotFoundError
| RuntimeError (msg : string)
| UnpicklingError
| EOFError
| AttributeError.

Inductive result (A : Type) :=
| Ok (a : A)
| Raise (e : exn).
Arguments Ok {A} a.
Arguments Raise {A} e.

Definition is_FileNotFoundError (e : exn) : bool :=
  match e with FileNotFoundError => true | _ => false end.

(** Truthiness of a Python [str]: only the empty string is falsy. *)
Definition str_truthy (s : string) : bool :=
  match s with EmptyString => false | String _ _ => true end.

(** ['%s.%d' % (s, i)] for a non-negative [i]. *)
Definition fmt_s_dot_d (s : string) (i : nat) : string :=
  s +:+ "." +:+ pretty i.

(** ** Data model of [system.py] *)

(** The status values that objects carry. *)
Inductive StatusValue :=
| SNone
| SBool (b : bool)
| SInt (z : Z)
| SFloat (q : Q)
| SStr (s : string).

(** A [SystemObject] as far as the snapshot code looks at it: [name],
    [status] and the optional attribute [user_editable], which is read
    with [getattr(obj, 'user_editable', False)]. *)
Record SystemObject := mkObject {
  name : string;
  status : StatusValue;
  user_editable : option bool
}.

Definition getattr_user_editable (o : SystemObject) : bool :=
  default false (user_editable o).

Definition set_status (s : StatusValue) (o : SystemObject) : SystemObject :=
  {| name := name o; status := s; user_editable := user_editable o |}.

Definition STATEFILE_VERSION : Z := 1.

(** What [pickle.load] finds in a file: the pair
    [(statefile_version, (obj_list, config))] that [save_state] dumps, or
    bytes that do not unpickle to such a pair. *)
Inductive file_content :=
| Pickle (statefile_version : Z)
         (obj_list : list SystemObject) (config : gmap string StatusValue)
| NotAPickle.

Record file := mkFile { mtime : Z; content : file_content }.

(** The [System] traits used by the snapshot code. *)
Record System := mkSystem {
  filename : string;
  num_state_backups : Z;
  objects : list SystemObject
}.

(** ** The world: files on disk and the trace of observable steps *)

Inductive event :=
| LogError (msg : string)
| LogDebug (msg : string)
| OsRename (src dst : string) (found : bool)
| OpenWb (path : string)
| Close (path : string)
| MutexAcquire
| MutexRelease
| CopyObjects
| BuildConfig
| PickleDump (path : string).

Record world := mkWorld {
  files : gmap string file;
  trace : list event
}.

(** State-and-exception monad over the world. *)
Definition M (A : Type) : Type := world → result A * world.

Definition ret {A} (a : A) : M A := λ w, (Ok a, w).

Definition bind {A B} (m : M A) (k : A → M B) : M B :=
  λ w, match m w with
       | (Ok a, w') => k a w'
       | (Raise e, w') => (Raise e, w')
       end.

Notation "x <~ m ;; k" := (bind m (λ x, k))
  (at level 100, m at next level, right associativity).
Notation "m ;;; k" := (bind m (λ _, k))
  (at level 100, right associativity).

Definition raise {A} (e : exn) : M A := λ w, (Raise e, w).

Definition emit (e : event) : M unit :=
  λ w, (Ok tt, {| files := files w; trace := trace w ++ [e] |}).

Definition get_files : M (gmap string file) := λ w, (Ok (files w), w).

Definition put_files (fs : gmap string file) : M unit :=
  λ w, (Ok tt, {| files := fs; trace := trace w |}).

(** [try: m  except E: h] where [catches] recognises [E]. *)
Definition try_except {A} (m : M A) (catches : exn → bool) (h : M A) : M A :=
  λ w, match m w with
       | (Ok a, w') => (Ok a, w')
       | (Raise e, w') => if catches e then h w' else (Raise e, w')
       end.

(** [with] statement: the exit action runs whether or not the body raised. *)
Definition with_ {A} (enter exit_ : M unit) (body : M A) : M A :=
  λ w, match enter w with
       | (Raise e, w1) => (Raise e, w1)
       | (Ok _, w1) =>
           match body w1 with
           | (r, w2) =>
               match exit_ w2 with
               | (Ok _, w3) => (r, w3)
               | (Raise e, w3) => (Raise e, w3)
               end
           end
       end.

(** [for x in l: f x] *)
Fixpoint for_each {A} (l : list A) (f : A → M unit) : M unit :=
  match l with
  | [] => ret tt
  | x :: l' => f x ;;; for_each l' f
  end.

(** [os.rename(src, dst)] as on POSIX: raises [FileNotFoundError] when
    [src] is missing, otherwise [dst] is replaced by the file and [src] is
    gone. *)
Definition os_rename (src dst : string) : M unit :=
  fs <~ get_files ;;
  match fs !! src with
  | None => emit (OsRename src dst false) ;;; raise FileNotFoundError
  | Some f =>
      emit (OsRename src dst true) ;;;
      put_files (<[dst := f]> (delete src fs))
  end.

(** [open(path, 'wb')] truncates or creates the file. *)
Definition open_wb (now : Z) (path : string) : M unit :=
  fs <~ get_files ;;
  emit (OpenWb path) ;;;
  put_files (<[path := {| mtime := now; content := NotAPickle |}]> fs).

Definition close (path : string) : M unit := emit (Close path).

(** [pickle.dump((version, (obj_list, config)), file)] *)
Definition pickle_dump (now : Z) (path : string) (version : Z)
    (obj_list : list SystemObject) (config : gmap string StatusValue) : M unit :=
  fs <~ get_files ;;
  emit (PickleDump path) ;;;
  put_files (<[path := {| mtime := now;
                          content := Pickle version obj_list config |}]> fs).

(** [reversed(range(n))] *)
Definition reversed_range (n : Z) : list nat := rev (seq 0 (Z.to_nat n)).

(** [{obj.name: obj.status for obj in obj_list
      if getattr(obj, 'user_editable', False)}]: later entries replace
    earlier ones with the same key. *)
Definition editable_config (obj_list : list SystemObject) : gmap string StatusValue :=
  foldl (λ cfg obj,
           if getattr_user_editable obj
           then <[name obj := status obj]> cfg else cfg)
        ∅ obj_list.

(** [fname = self.filename if i == 0 else '%s.%d' % (self.filename, i)] *)
Definition backup_fname (fname : string) (i : nat) : string :=
  if (i =? 0)%nat then fname else fmt_s_dot_d fname i.

(** The body of the rotation loop of [save_state]. *)
Definition rotate_backup (self_filename : string) (i : nat) : M unit :=
  let fname := backup_fname self_filename i in
  let new_fname := fmt_s_dot_d self_filename (i + 1)%nat in
  try_except (os_rename fname new_fname) is_FileNotFoundError (ret tt).

(** [System.save_state] *)
Definition save_state (now : Z) (self : System) : M unit :=
  if negb (str_truthy (filename self)) then
    emit (LogError "Filename not specified. Could not save state")
  else
    emit (LogDebug "Saving system state") ;;;
    for_each (reversed_range (num_state_backups self))
      (rotate_backup (filename self)) ;;;
    with_ (open_wb now (filename self)) (close (filename self))
      (with_ (emit MutexAcquire) (emit MutexRelease)
         (emit CopyObjects ;;;
          let obj_list := objects self in
          emit BuildConfig ;;;
          let config := editable_config obj_list in
          pickle_dump now (filename self) STATEFILE_VERSION obj_list config)).

(** ** [System.__init__] as far as the snapshot code depends on it *)

(** Modelled from the spec: [Namespace.set_system] lives in
    [namespace.py], which is not among the sources. Objects are "created
    at system construction (from static definitions) or at snapshot-load
    time (deserialized, then re-registered)": the deserialized list when
    there is one, the static definitions of the class otherwise. *)
Definition set_system (static_objects : list SystemObject)
    (load_state : option (list SystemObject)) : list SystemObject :=
  match load_state with
  | Some obj_list => obj_list
  | None => static_objects
  end.

(** What plain attribute lookup on the [System] object finds under a
    name, before [System.__getattr__] is asked for an object of the
    namespace: a trait, a property or a method of the object itself. On
    most of them ([filename], [name], [save_state], ...) the value takes
    no attribute, and [getattr(self, key).status = status] raises
    [AttributeError]; on some (a logger, a thread) the assignment goes
    through and changes no object of the namespace. *)
Inductive own_attribute :=
| RejectsStatus
| AcceptsStatus.

Global Instance own_attribute_eq_dec : EqDecision own_attribute.
Proof. solve_decision. Defined.

(** [for obj_name, status in load_config.items():
       if hasattr(self, obj_name): getattr(self, obj_name).status = status]
    [own] lists the names that plain attribute lookup resolves on the
    object itself; they shadow the namespace. Any other key is looked up
    in the namespace by [System.__getattr__], and skipped when it names
    no object. The first [AttributeError] ends the constructor. *)
Definition load_status (own : gmap string own_attribute)
    (load_config : gmap string StatusValue) (obj : SystemObject) : SystemObject :=
  match own !! name obj with
  | Some _ => obj
  | None =>
      match load_config !! name obj with
      | Some s => set_status s obj
      | None => obj
      end
  end.

Definition apply_load_config (own : gmap string own_attribute)
    (load_config : gmap string StatusValue)
    (objs : list SystemObject) : result (list SystemObject) :=
  if bool_decide (map_Forall (λ key _, own !! key ≠ Some RejectsStatus) load_config)
  then Ok (load_status own load_config <$> objs)
  else Raise AttributeError.

(** Truthiness of [load_config]: [None] and the empty dict are falsy. *)
Definition config_truthy (load_config : option (gmap string StatusValue)) : bool :=
  match load_config with
  | None => false
  | Some cfg => negb (bool_decide (cfg = ∅))
  end.

(** [cls(load_state=..., load_config=..., filename=...)]; the traits not
    passed keep their defaults ([num_state_backups = CInt(5)]). *)
Definition System_init (static_objects : list SystemObject)
    (own : gmap string own_attribute)
    (load_state : option (list SystemObject))
    (load_config : option (gmap string StatusValue))
    (fname : string) : result System :=
  let objs := set_system static_objects load_state in
  match (if config_truthy load_config
         then apply_load_config own (default ∅ load_config) objs
         else Ok objs) with
  | Ok objs => Ok {| filename := fname; num_state_backups := 5; objects := objs |}
  | Raise e => Raise e
  end.

(** ** [System.load_or_create] *)

(** What the call reads from its surroundings: the flags [argparse] finds
    on the command line, the files on disk, the modification time of
    [sys.argv[0]], the lines that [input()] will return, the static
    object definitions of the class [cls], and the names that attribute
    lookup finds on an object of that class itself. *)
Record environment := mkEnvironment {
  args_no_input : bool;
  args_create_new : bool;
  env_files : gmap string file;
  time_program : Z;
  stdin : list string;
  cls_static_objects : list SystemObject;
  cls_own_attributes : gmap string own_attribute
}.

(** An environment in which no key of a config is an attribute of the
    system object itself. *)
Definition mkEnv (args_no_input args_create_new : bool)
    (env_files : gmap string file) (time_program : Z) (stdin : list string)
    (cls_static_objects : list SystemObject) : environment :=
  mkEnvironment args_no_input args_create_new env_files time_program stdin
    cls_static_objects ∅.

Definition os_path_isfile (fs : gmap string file) (path : string) : bool :=
  bool_decide (is_Some (fs !! path)).

(** [savefile_more_recent()]; only called when the file exists. *)
Definition savefile_more_recent (env : environment) (fname : string) : bool :=
  match env_files env !! fname with
  | Some f => bool_decide (time_program env < mtime f)
  | None => false
  end.

Definition load_pickle (fs : gmap string file) (fname : string)
  : result (list SystemObject * gmap string StatusValue) :=
  match fs !! fname with
  | None => Raise FileNotFoundError
  | Some f =>
      match content f with
      | NotAPickle => Raise UnpicklingError
      | Pickle statefile_version obj_list config =>
          if bool_decide (statefile_version ≠ STATEFILE_VERSION)
          then Raise (RuntimeError
                 ("Wrong statefile version, please remove state file " +:+ fname))
          else Ok (obj_list, config)
      end
  end.

(** [load()] constructs the base class [System], which has no static
    objects of its own, from the pickled list; the pickled config is
    dropped, so the attributes of the object play no part. *)
Definition load (env : environment) (fname : string) : result System :=
  match load_pickle (env_files env) fname with
  | Ok (obj_list, config) => System_init [] ∅ (Some obj_list) None fname
  | Raise e => Raise e
  end.

Definition create (env : environment) (fname : string) : result System :=
  if str_truthy fname then
    match load_pickle (env_files env) fname with
    | Ok (obj_list, config) =>
        System_init (cls_static_objects env) (cls_own_attributes env)
          None (Some config) fname
    | Raise FileNotFoundError =>
        System_init (cls_static_objects env) (cls_own_attributes env)
          None None fname
    | Raise e => Raise e
    end
  else System_init (cls_static_objects env) (cls_own_attributes env)
         None None fname.

(** The [while True: answer = input(...)] loop; [input()] raises
    [EOFError] when standard input is exhausted. *)
Fixpoint prompt_loop (answers : list string) (env : environment)
    (fname : string) : result System :=
  match answers with
  | [] => Raise EOFError
  | answer :: rest =>
      if String.eqb answer "y" then create env fname
      else if String.eqb answer "n" then load env fname
      else prompt_loop rest env fname
  end.

(** The flags after the command line has been looked at. *)
Definition effective_no_input (env : environment) (no_input : bool) : bool :=
  let no_input := if args_no_input env then true else no_input in
  if args_create_new env then true else no_input.

Definition effective_create_new (env : environment) (create_new : bool) : bool :=
  if args_create_new env then true else create_new.

Definition load_or_create (env : environment) (fname : string)
    (no_input create_new : bool) : result System :=
  let no_input := effective_no_input env no_input in
  let create_new := effective_create_new env create_new in
  if str_truthy fname && os_path_isfile (env_files env) fname then
    if savefile_more_recent env fname && negb create_new then
      load env fname
    else if no_input then create env fname
    else prompt_loop (stdin env) env fname
  else create env fname.

(** ** [System.get_unique_name] *)

(** ["%.2d" % counter]: at least two digits, padded with a zero. *)
Definition fmt_02d (counter : nat) : string :=
  if (counter <? 10)%nat then "0" +:+ pretty counter else pretty counter.

(** [u"%s_%.2d" % (newname, counter)] *)
Definition fmt_s_02d (newname : string) (counter : nat) : string :=
  newname +:+ "_" +:+ fmt_02d counter.

(** The [while True] probe, with the number of iterations bounded by
    [fuel]; [None] stands for a loop that has not returned yet. *)
Fixpoint probe_names (ns : gset string) (newname : string)
    (fuel counter : nat) : option string :=
  match fuel with
  | O => None
  | S fuel' =>
      let newname1 := fmt_s_02d newname counter in
      if bool_decide (newname1 ∉ ns) then Some newname1
      else probe_names ns newname fuel' (S counter)
  end.

(** The name the probe starts from. *)
Definition base_name (class_name name name_from_system : string) : string :=
  let newname := name in
  let newname := if negb (str_truthy newname) then name_from_system else newname in
  if negb (str_truthy newname) then "Nameless_" +:+ class_name else newname.

(** [ns] is the set of keys of [self.namespace]; [class_name] is
    [obj.__class__.__name__]. *)
Definition get_unique_name (fuel : nat) (ns : gset string) (class_name : string)
    (name name_from_system : string) : option string :=
  let newname := base_name class_name name name_from_system in
  if bool_decide (newname ∉ ns) then Some newname
  else probe_names ns newname fuel 0.

(** ** [System.cmd_exec] *)

Module CmdExec.

(** Exceptions as the handlers of [cmd_exec] tell them apart. *)
Inductive py_exn :=
| SyntaxError
| ExitException
| OtherException (msg : string)   (* any other subclass of [Exception] *)
| NonException (msg : string).    (* [BaseException] outside [Exception]:
                                     [KeyboardInterrupt], [SystemExit] *)

(** A Python object as [cmd_exec] inspects it: its identity, whether it is
    a [SystemObject], whether [r.system] is set, what [r.setup_system(self)]
    and [r()] do ([None]: they return). *)
Record py_object := mkPyObject {
  oid : nat;
  is_SystemObject : bool;
  has_system : bool;
  setup_system_outcome : option py_exn;
  is_callable : bool;
  call_outcome : option py_exn
}.

(** The host language: [eval(cmd, ns)] and [exec(cmd, ns)]. [exec] may
    have changed [ns] by the time it raises. *)
Record interpreter := mkInterpreter {
  py_eval : string → gmap string py_object → py_exn + py_object;
  py_exec : string → gmap string py_object →
            option py_exn * gmap string py_object
}.

Inductive log_entry :=
| Info (msg : string) (arg : string).

Record state := mkState {
  namespace : gmap string py_object;
  log : list log_entry
}.

(** How a call ends: [return v] ([None] is Python's [None]) or an
    exception that leaves the function. *)
Inductive outcome :=
| Return (v : option bool)
| Propagate (e : py_exn).

Definition info (msg arg : string) (st : state) : state :=
  {| namespace := namespace st; log := log st ++ [Info msg arg] |}.

(** [dict(list(automate.__dict__.items()) + list(self.namespace.items()))]:
    entries of the namespace win. *)
Definition cmd_namespace (automate_dict : gmap string py_object) (st : state)
  : gmap string py_object :=
  namespace st ∪ automate_dict.

(** The body of the outer [try]. *)
Definition eval_part (I : interpreter) (cmd : string)
    (ns : gmap string py_object) (st : state) : option py_exn * state :=
  match py_eval I cmd ns with
  | inl e => (Some e, st)
  | inr r =>
      match (if is_SystemObject r && negb (has_system r)
             then setup_system_outcome r else None) with
      | Some e => (Some e, st)
      | None =>
          if is_callable r then
            match call_outcome r with
            | Some e => (Some e, st)
            | None => (None, info "Result: %s" "" (info "Eval: %s" (cmd +:+ "()") st))
            end
          else (None, info "Result: %s" "" (info "Eval: %s" cmd st))
      end
  end.

(** [key not in nscopy or not value is nscopy[key]] *)
Definition changed_entry (nscopy : gmap string py_object)
    (kv : string * py_object) : Prop :=
  oid <$> (nscopy !! kv.1) ≠ Some (oid kv.2).

Global Instance changed_entry_dec nscopy kv : Decision (changed_entry nscopy kv).
Proof. unfold changed_entry. apply _. Defined.

(** The loop that copies new and rebound names into [self.namespace]. *)
Definition store_changes (nscopy ns : gmap string py_object) (st : state) : state :=
  {| namespace := filter (changed_entry nscopy) ns ∪ namespace st;
     log := log st |}.

(** The handler [except SyntaxError:]. *)
Definition exec_part (I : interpreter) (cmd : string)
    (nscopy ns : gmap string py_object) (st : state) : outcome * state :=
  match py_exec I cmd ns with
  | (None, ns') =>
      let st := info "Exec: %s" cmd st in
      (Return (Some true),
       info "Set items in namespace: %s" "" (store_changes nscopy ns' st))
  | (Some ExitException, ns') => (Propagate ExitException, st)
  | (Some (NonException m), ns') => (Propagate (NonException m), st)
  | (Some (SyntaxError | OtherException _), ns') =>
      let st := info "Failed to exec cmd %s: %s." cmd st in
      (Return (Some false),
       info "Set items in namespace: %s" "" (store_changes nscopy ns' st))
  end.

Definition cmd_exec (I : interpreter) (automate_dict : gmap string py_object)
    (cmd : string) (st : state) : outcome * state :=
  if negb (str_truthy cmd) then (Return None, st)
  else
    let ns := cmd_namespace automate_dict st in
    let nscopy := ns in
    match eval_part I cmd ns st with
    | (None, st') => (Return (Some true), st')
    | (Some SyntaxError, st') => exec_part I cmd nscopy ns st'
    | (Some ExitException, st') => (Propagate ExitException, st')
    | (Some (OtherException m), st') =>
        (Return (Some false), info "Failed to eval cmd %s: %s" cmd st')
    | (Some (NonException m), st') => (Propagate (NonException m), st')
    end.




End CmdExec.

(** ** [ArduinoService] *)

Module Arduino.

Definition SYSEX_VIRTUALWIRE_MESSAGE : Z := 0x00.
Definition SYSEX_KEEP_ALIVE : Z := 0x01.
Definition SYSEX_SETUP_VIRTUALWIRE : Z := 0x02.
Definition SYSEX_SETUP_LCD : Z := 0x03.
Definition SYSEX_SET_ANALOG_REFERENCE : Z := 0x05.
Definition SYSEX_SET_INSTANT_DIGITAL_REPORTING : Z := 0x06.
Definition VIRTUALWIRE_DIGITAL_BROADCAST : Z := 0x06.
Definition VIRTUALWIRE_ANALOG_BROADCAST : Z := 0x07.

(** Constants of the pyfirmata library. *)
Definition SYSTEM_RESET : Z := 0xFF.
Definition SAMPLING_INTERVAL : Z := 0x7A.
Definition STRING_DATA : Z := 0x71.
Definition SET_PIN_MODE : Z := 0xF4.

(** [errno.ENOENT] *)
Definition ENOENT : Z := 2.

Inductive py_exn :=
| FileNotReadableError
| OSError (errno : Z)
| ValueError
| KeyError
| AttributeError
| PinError (what : string).   (* pyfirmata's [InvalidPinDefError] and
                                 [PinAlreadyTakenError] *)

Inductive log_entry :=
| Debug (msg : string)
| Warning (msg : string)
| Error (msg : string).

(** What reaches the board, the serial port or the thread system. *)
Inductive hw_event :=
| AddCmdHandler (cmd : Z)
| StartIteratorThread
| StartKeepaliveTimer
| SendSysex (cmd : Z) (data : list Z)
| SerialWrite (data : list Z)
| GetPin (spec : string)
| PinWrite (pin_nr : Z) (value : StatusValue).

(** [PinTuple(type, pin)]; [pin] is [None] in mocked mode. *)
Record PinTuple := mkPinTuple { type : string; pin : option Z }.

(** A sensor subscribed to VirtualWire broadcasts: a reference to the
    sensor object and its [pin] trait. *)
Record VWSensor := mkVWSensor { sensor_name : string; sensor_pin : Z }.

(** The service object: its traits and its private attributes. The board
    is a handle; [None] is Python's [None]. *)
Record ArduinoService := mkService {
  device : string;
  sample_rate : Z;
  home_address : Z;
  device_address : Z;
  virtualwire_tx_pin : Z;
  virtualwire_rx_pin : Z;
  virtualwire_ptt_pin : Z;
  lcd_port : Z;
  lcd_columns : Z;
  lcd_rows : Z;
  lcd_reporting : bool;
  wakeup_pin : Z;
  virtualwire_speed : Z;
  keep_alive : bool;
  analog_reference : Z;
  instant_digital_reporting : bool;
  is_mocked : bool;
  _board : option unit;
  _lock : option unit;
  _sens_virtualwire_digital : gmap Z (list VWSensor);
  _sens_virtualwire_analog : gmap Z (list VWSensor);
  _act_digital : gmap Z PinTuple
}.

(** The service together with everything it has caused so far: hardware
    traffic, log records, and the [set_status] calls made on sensors. *)
Record runtime := mkRuntime {
  svc : ArduinoService;
  hw : list hw_event;
  logs : list log_entry;
  status_calls : list (string * StatusValue)
}.

Definition with_svc (f : ArduinoService → ArduinoService) (rt : runtime) : runtime :=
  {| svc := f (svc rt); hw := hw rt; logs := logs rt;
     status_calls := status_calls rt |}.

Definition send (e : hw_event) (rt : runtime) : runtime :=
  {| svc := svc rt; hw := hw rt ++ [e]; logs := logs rt;
     status_calls := status_calls rt |}.

Definition logger (e : log_entry) (rt : runtime) : runtime :=
  {| svc := svc rt; hw := hw rt; logs := logs rt ++ [e];
     status_calls := status_calls rt |}.

Definition call_set_status (s : VWSensor) (v : StatusValue) (rt : runtime) : runtime :=
  {| svc := svc rt; hw := hw rt; logs := logs rt;
     status_calls := status_calls rt ++ [(sensor_name s, v)] |}.

Definition set_board (b : option unit) (mocked : bool) (s : ArduinoService)
  : ArduinoService :=
  mkService (device s) (sample_rate s) (home_address s) (device_address s)
    (virtualwire_tx_pin s) (virtualwire_rx_pin s) (virtualwire_ptt_pin s)
    (lcd_port s) (lcd_columns s) (lcd_rows s) (lcd_reporting s) (wakeup_pin s)
    (virtualwire_speed s) (keep_alive s) (analog_reference s)
    (instant_digital_reporting s) mocked b (_lock s)
    (_sens_virtualwire_digital s) (_sens_virtualwire_analog s) (_act_digital s).

Definition set_lock (l : option unit) (s : ArduinoService) : ArduinoService :=
  mkService (device s) (sample_rate s) (home_address s) (device_address s)
    (virtualwire_tx_pin s) (virtualwire_rx_pin s) (virtualwire_ptt_pin s)
    (lcd_port s) (lcd_columns s) (lcd_rows s) (lcd_reporting s) (wakeup_pin s)
    (virtualwire_speed s) (keep_alive s) (analog_reference s)
    (instant_digital_reporting s) (is_mocked s) (_board s) l
    (_sens_virtualwire_digital s) (_sens_virtualwire_analog s) (_act_digital s).

Definition set_act_digital (m : gmap Z PinTuple) (s : ArduinoService)
  : ArduinoService :=
  mkService (device s) (sample_rate s) (home_address s) (device_address s)
    (virtualwire_tx_pin s) (virtualwire_rx_pin s) (virtualwire_ptt_pin s)
    (lcd_port s) (lcd_columns s) (lcd_rows s) (lcd_reporting s) (wakeup_pin s)
    (virtualwire_speed s) (keep_alive s) (analog_reference s)
    (instant_digital_reporting s) (is_mocked s) (_board s) (_lock s)
    (_sens_virtualwire_digital s) (_sens_virtualwire_analog s) m.

Definition set_sens_vw_digital (m : gmap Z (list VWSensor)) (s : ArduinoService)
  : ArduinoService :=
  mkService (device s) (sample_rate s) (home_address s) (device_address s)
    (virtualwire_tx_pin s) (virtualwire_rx_pin s) (virtualwire_ptt_pin s)
    (lcd_port s) (lcd_columns s) (lcd_rows s) (lcd_reporting s) (wakeup_pin s)
    (virtualwire_speed s) (keep_alive s) (analog_reference s)
    (instant_digital_reporting s) (is_mocked s) (_board s) (_lock s)
    m (_sens_virtualwire_analog s) (_act_digital s).

Definition set_sens_vw_analog (m : gmap Z (list VWSensor)) (s : ArduinoService)
  : ArduinoService :=
  mkService (device s) (sample_rate s) (home_address s) (device_address s)
    (virtualwire_tx_pin s) (virtualwire_rx_pin s) (virtualwire_ptt_pin s)
    (lcd_port s) (lcd_columns s) (lcd_rows s) (lcd_reporting s) (wakeup_pin s)
    (virtualwire_speed s) (keep_alive s) (analog_reference s)
    (instant_digital_reporting s) (is_mocked s) (_board s) (_lock s)
    (_sens_virtualwire_digital s) m (_act_digital s).

(** [if not self._board: return] in front of a method body. *)
Definition unless_no_board (body : runtime → runtime) (rt : runtime) : runtime :=
  match _board (svc rt) with
  | None => rt
  | Some _ => body rt
  end.

(** [bytearray(data)] accepts integers in [range(256)] only. *)
Definition is_byte (x : Z) : bool := (0 <=? x) && (x <? 256).
Definition bytearray_ok (data : list Z) : bool := forallb is_byte data.

(** [pyfirmata.util.to_two_bytes] *)
Definition to_two_bytes (x : Z) : list Z := [x `mod` 128; Z.shiftr x 7].

Definition Z_of_bool (b : bool) : Z := if b then 1 else 0.

Definition write (data : list Z) (rt : runtime) : option py_exn * runtime :=
  if negb (bytearray_ok data) then (Some ValueError, rt)
  else (None, unless_no_board
                (λ rt, send (SerialWrite data) (logger (Debug "Writing %s") rt)) rt).

Definition reset (rt : runtime) : runtime :=
  unless_no_board (λ rt, (write [SYSTEM_RESET] rt).2) rt.

Definition configure_sample_rate (rt : runtime) : runtime :=
  unless_no_board
    (λ rt, send (SendSysex SAMPLING_INTERVAL (to_two_bytes (sample_rate (svc rt)))) rt)
    rt.

Definition configure_instant_digital_reporting (rt : runtime) : runtime :=
  unless_no_board
    (λ rt, send (SendSysex SYSEX_SET_INSTANT_DIGITAL_REPORTING
                   [Z_of_bool (instant_digital_reporting (svc rt))]) rt)
    rt.

Definition setup_virtualwire_input (rt : runtime) : runtime :=
  unless_no_board (send (AddCmdHandler SYSEX_VIRTUALWIRE_MESSAGE)) rt.

Definition configure_virtualwire (rt : runtime) : runtime :=
  unless_no_board
    (λ rt,
       let s := svc rt in
       setup_virtualwire_input
         (send (SendSysex SYSEX_SETUP_VIRTUALWIRE
                  [virtualwire_rx_pin s; virtualwire_tx_pin s;
                   virtualwire_ptt_pin s; wakeup_pin s; virtualwire_speed s;
                   home_address s; device_address s])
            (logger (Debug "Configuring virtualwire") rt)))
    rt.

Definition configure_lcd (rt : runtime) : runtime :=
  unless_no_board
    (λ rt,
       let s := svc rt in
       send (SendSysex SYSEX_SETUP_LCD
               [lcd_port s; lcd_columns s; lcd_rows s; Z_of_bool (lcd_reporting s)])
         (logger (Debug "Configuring LCD in port %d cols %d rows %d") rt))
    rt.

Definition configure_analog_reference (rt : runtime) : runtime :=
  if (analog_reference (svc rt) =? -1) then rt
  else
    unless_no_board
      (λ rt, send (SendSysex SYSEX_SET_ANALOG_REFERENCE [analog_reference (svc rt)])
               (logger (Debug "Configuring Analog reference to setting %d") rt))
      rt.

(** One round of [_keep_alive]; it does not test [_board] itself and is
    only reached from [setup] when a board is present. *)
Definition _keep_alive (rt : runtime) : runtime :=
  let rt := if keep_alive (svc rt)
            then send (SendSysex SYSEX_KEEP_ALIVE [0])
                   (logger (Debug "Sending keep-alive message to Arduino") rt)
            else rt in
  send StartKeepaliveTimer rt.

Definition mocked_warning : log_entry :=
  Warning "Your arduino device %s is not available. Arduino will be mocked.".

(** [ArduinoService.setup]. [os_access] is [os.access(self.device, os.R_OK)];
    [open_board] is what [pyfirmata.Board(...)] does: it returns a board or
    raises [OSError] with the given [errno]. [os.errno] is read as the
    [errno] module, which is what that name gives where it exists. *)
Definition setup (os_access : bool) (open_board : Z + unit) (rt : runtime)
  : option py_exn * runtime :=
  let rt := logger (Debug "Initializing Arduino subsystem") rt in
  let attempt : py_exn + unit :=
    if negb os_access then inl FileNotReadableError
    else match open_board with
         | inl errno => inl (OSError errno)
         | inr board => inr board
         end in
  let handled : option py_exn * runtime :=
    match attempt with
    | inr board => (None, with_svc (set_board (Some board) false) rt)
    | inl FileNotReadableError =>
        (None, with_svc (set_board None true) (logger mocked_warning rt))
    | inl (OSError errno) =>
        if errno =? ENOENT then
          (None, with_svc (set_board None true) (logger mocked_warning rt))
        else (Some (OSError errno), rt)
    | inl e => (Some e, rt)
    end in
  match handled with
  | (Some e, rt) => (Some e, rt)
  | (None, rt) =>
      let rt := with_svc (set_lock (Some tt)) rt in
      (None,
       unless_no_board
         (λ rt,
            let rt := send (AddCmdHandler STRING_DATA) rt in
            let rt := send StartIteratorThread rt in
            let rt := reset rt in
            let rt := configure_sample_rate rt in
            let rt := configure_instant_digital_reporting rt in
            let rt := configure_virtualwire rt in
            let rt := configure_lcd rt in
            let rt := configure_analog_reference rt in
            _keep_alive rt)
         rt)
  end.

(** An argument of [send_virtualwire_command]: a [bytearray], a [str]
    (given by its UTF-8 bytes) or a single integer. *)
Inductive vw_arg :=
| ArgBytes (b : list Z)
| ArgStr (utf8 : list Z)
| ArgInt (a : Z).

Definition vw_arg_bytes (a : vw_arg) : list Z :=
  match a with ArgBytes b => b | ArgStr b => b | ArgInt a => [a] end.

Definition send_virtualwire_command (recipient command : Z) (args : list vw_arg)
    (rt : runtime) : option py_exn * runtime :=
  match _board (svc rt) with
  | None => (None, rt)
  | Some _ =>
      let data := ([home_address (svc rt); device_address (svc rt);
                    recipient; command] ++ concat (vw_arg_bytes <$> args))%list in
      if negb (bytearray_ok data) then (Some ValueError, rt)
      else (None, send (SendSysex SYSEX_VIRTUALWIRE_MESSAGE data)
                    (logger (Debug "VW: Sending command %s") rt))
  end.

Definition set_pin_mode (pin_number mode : Z) (rt : runtime)
  : option py_exn * runtime :=
  match _board (svc rt) with
  | None => (None, rt)
  | Some _ =>
      write [SET_PIN_MODE; pin_number; mode]
        (logger (Debug "Setting pin mode for pin %s to %s") rt)
  end.

(** [ArduinoService.setup_digital]. [get_pin] is what
    [self._board.get_pin(...)] does when it is called: it returns the pin
    ([None]) or raises (the pin is taken, is no pin of the board, ...);
    when it raises, nothing is registered. *)
Definition setup_digital (pin_nr : Z) (get_pin : option py_exn) (rt : runtime)
  : option py_exn * runtime :=
  match _board (svc rt) with
  | None =>
      (None,
       with_svc (λ s, set_act_digital
                        (<[pin_nr := mkPinTuple "o" None]> (_act_digital s)) s) rt)
  | Some _ =>
      let rt := send (GetPin ("d:" +:+ pretty pin_nr +:+ ":o")) rt in
      match get_pin with
      | Some e => (Some e, rt)
      | None =>
          (None,
           with_svc (λ s, set_act_digital
                            (<[pin_nr := mkPinTuple "o" (Some pin_nr)]>
                               (_act_digital s)) s) rt)
      end
  end.

(** [self._act_digital[pin_nr].pin.write(value)]: [KeyError] without an
    entry, [AttributeError] on an entry whose pin is [None] (made while
    there was no board). *)
Definition change_digital (pin_nr : Z) (value : StatusValue) (rt : runtime)
  : option py_exn * runtime :=
  match _board (svc rt) with
  | None => (None, rt)
  | Some _ =>
      match _act_digital (svc rt) !! pin_nr with
      | None => (Some KeyError, rt)
      | Some (mkPinTuple _ None) => (Some AttributeError, rt)
      | Some (mkPinTuple _ (Some _)) => (None, send (PinWrite pin_nr value) rt)
      end
  end.

(** [self._sens_virtualwire_digital[sender_address]] on a
    [defaultdict(list)]: a missing key is inserted with an empty list. *)
Definition defaultdict_get (m : gmap Z (list VWSensor)) (k : Z)
  : list VWSensor * gmap Z (list VWSensor) :=
  match m !! k with
  | Some l => (l, m)
  | None => ([], <[k := []]> m)
  end.

(** [ArduinoService._virtualwire_message_callback] *)
Definition _virtualwire_message_callback (sender_address command : Z)
    (data : list Z) (rt : runtime) : option py_exn * runtime :=
  if negb (bytearray_ok data) then (Some ValueError, rt)
  else
    let rt := logger (Debug "pulse %s %s %s") rt in
    if command =? VIRTUALWIRE_DIGITAL_BROADCAST then
      match data with
      | [port_nr; value] =>
          let '(sensors, m) :=
            defaultdict_get (_sens_virtualwire_digital (svc rt)) sender_address in
          let rt := with_svc (set_sens_vw_digital m) rt in
          (None,
           foldl (λ rt s,
                    let port := sensor_pin s `div` 8 in
                    let pin_in_port := sensor_pin s `mod` 8 in
                    if port_nr =? port then
                      call_set_status s
                        (SBool (negb (Z.land value (Z.shiftl 1 pin_in_port) =? 0))) rt
                    else rt)
                 rt sensors)
      | _ => (None, logger (Error "Broken digital data: %s %s %s") rt)
      end
    else if command =? VIRTUALWIRE_ANALOG_BROADCAST then
      match data with
      | [pin; msb; lsb] =>
          let value := Qmake (Z.shiftl msb 8 + lsb) 1023 in
          let rt := logger (Debug "Analog data: %s %s") rt in
          let '(sensors, m) :=
            defaultdict_get (_sens_virtualwire_analog (svc rt)) sender_address in
          let rt := with_svc (set_sens_vw_analog m) rt in
          (None,
           foldl (λ rt s,
                    if sensor_pin s =? pin then call_set_status s (SFloat value) rt
                    else rt)
                 rt sensors)
      | _ => (None, logger (Error "Broken analog data: %s %s %s") rt)
      end
    else (None, rt).

(** *** Subscriptions to VirtualWire broadcasts *)

Global Instance VWSensor_eq_dec : EqDecision VWSensor.
Proof. solve_decision. Defined.

(** [l.remove(x)]: the first occurrence of [x] is dropped; [None] stands
    for the [ValueError] raised when there is none. *)
Fixpoint list_remove_first (x : VWSensor) (l : list VWSensor)
  : option (list VWSensor) :=
  match l with
  | [] => None
  | y :: l' =>
      if decide (x = y) then Some l' else cons y <$> list_remove_first x l'
  end.

Definition subscribe_virtualwire_digital_broadcast (sensor : VWSensor)
    (source_device : Z) (rt : runtime) : runtime :=
  let '(l, m) := defaultdict_get (_sens_virtualwire_digital (svc rt)) source_device in
  with_svc (set_sens_vw_digital (<[source_device := (l ++ [sensor])%list]> m)) rt.

Definition unsubscribe_virtualwire_digital_broadcast (sensor : VWSensor)
    (source_device : Z) (rt : runtime) : option py_exn * runtime :=
  let '(l, m) := defaultdict_get (_sens_virtualwire_digital (svc rt)) source_device in
  match list_remove_first sensor l with
  | None => (Some ValueError, with_svc (set_sens_vw_digital m) rt)
  | Some l' => (None, with_svc (set_sens_vw_digital (<[source_device := l']> m)) rt)
  end.

Definition subscribe_virtualwire_analog_broadcast (sensor : VWSensor)
    (source_device : Z) (rt : runtime) : runtime :=
  let '(l, m) := defaultdict_get (_sens_virtualwire_analog (svc rt)) source_device in
  with_svc (set_sens_vw_analog (<[source_device := (l ++ [sensor])%list]> m)) rt.

Definition unsubscribe_virtualwire_analog_broadcast (sensor : VWSensor)
    (source_device : Z) (rt : runtime) : option py_exn * runtime :=
  let '(l, m) := defaultdict_get (_sens_virtualwire_analog (svc rt)) source_device in
  match list_remove_first sensor l with
  | None => (Some ValueError, with_svc (set_sens_vw_analog m) rt)
  | Some l' => (None, with_svc (set_sens_vw_analog (<[source_device := l']> m)) rt)
  end.

(** *** Actuator pins *)

(** [ArduinoService.setup_pwm]; [get_pin] as for [setup_digital] (it also
    raises for a pin without PWM capability). *)
Definition setup_pwm (pin_nr : Z) (get_pin : option py_exn) (rt : runtime)
  : option py_exn * runtime :=
  match _board (svc rt) with
  | None =>
      (None,
       with_svc (λ s, set_act_digital
                        (<[pin_nr := mkPinTuple "p" None]> (_act_digital s)) s) rt)
  | Some _ =>
      let rt := send (GetPin ("d:" +:+ pretty pin_nr +:+ ":p")) rt in
      match get_pin with
      | Some e => (Some e, rt)
      | None =>
          (None,
           with_svc (λ s, set_act_digital
                            (<[pin_nr := mkPinTuple "p" (Some pin_nr)]>
                               (_act_digital s)) s) rt)
      end
  end.

(** [self._act_digital.pop(pin_nr, None)] *)
Definition cleanup_digital_actuator (pin_nr : Z) (rt : runtime) : runtime :=
  with_svc (λ s, set_act_digital (delete pin_nr (_act_digital s)) s) rt.

Definition cleanup_virtualwire_actuator (pin_nr : Z) (rt : runtime) : runtime :=
  with_svc (λ s, set_act_digital (delete pin_nr (_act_digital s)) s) rt.

(** *** The LCD *)

Definition SYSEX_LCD_COMMAND : Z := 0x04.
Definition LCD_SET_BACKLIGHT : Z := 0x01.
Definition LCD_PRINT : Z := 0x02.
Definition LCD_CLEAR : Z := 0x03.
Definition LCD_SET_CURSOR : Z := 0x04.
Definition LCD_SET_REPORTING : Z := 0x05.

(** A [str] is kept as the string of its UTF-8 bytes; [value.encode('utf-8')]
    lists them. *)
Definition utf8_bytes (value : string) : list Z :=
  (λ c, Z.of_N (N_of_ascii c)) <$> Stdlib.Strings.String.list_ascii_of_string value.

(** [value.split('\n')] *)
Fixpoint split_newline (value : string) : list string :=
  match value with
  | EmptyString => [EmptyString]
  | String c rest =>
      if Ascii.eqb c "010" then EmptyString :: split_newline rest
      else match split_newline rest with
           | line :: lines => String c line :: lines
           | [] => [String c EmptyString]
           end
  end.

Definition lcd_set_cursor (col row : Z) (rt : runtime) : option py_exn * runtime :=
  match _board (svc rt) with
  | None => (None, rt)
  | Some _ =>
      let rt := logger (Debug "LCD Setting cursor to %d %d") rt in
      if negb (bytearray_ok [LCD_SET_CURSOR; col; row]) then (Some ValueError, rt)
      else (None, send (SendSysex SYSEX_LCD_COMMAND [LCD_SET_CURSOR; col; row]) rt)
  end.

Definition lcd_clear (rt : runtime) : runtime :=
  unless_no_board
    (λ rt, send (SendSysex SYSEX_LCD_COMMAND [LCD_CLEAR])
             (logger (Debug "Clearing LCD") rt))
    rt.

Definition _lcd_print_raw (value : string) (rt : runtime) : runtime :=
  unless_no_board
    (λ rt, send (SendSysex SYSEX_LCD_COMMAND
                   ([LCD_PRINT] ++ utf8_bytes value ++ [0])%list)
             (logger (Debug "Printing to LCD: %s") rt))
    rt.

(** The loop of [lcd_print] over [enumerate(lines)], from [line_number]
    on; an exception of [lcd_set_cursor] ends it. *)
Fixpoint lcd_print_lines (line_number : nat) (lines : list string) (rt : runtime)
  : option py_exn * runtime :=
  match lines with
  | [] => (None, rt)
  | line :: lines' =>
      match lcd_set_cursor 0 (Z.of_nat line_number) rt with
      | (Some e, rt) => (Some e, rt)
      | (None, rt) => lcd_print_lines (S line_number) lines' (_lcd_print_raw line rt)
      end
  end.

Definition lcd_print (value : string) (rt : runtime) : option py_exn * runtime :=
  let lines := split_newline value in
  lcd_print_lines 0 lines (lcd_clear rt).

Definition lcd_set_reporting (value : bool) (rt : runtime) : runtime :=
  unless_no_board
    (λ rt, send (SendSysex SYSEX_LCD_COMMAND [LCD_SET_REPORTING; Z_of_bool value])
             (logger (Debug "Setting LCD backlight to %d") rt))
    rt.

Definition lcd_set_backlight (value : bool) (rt : runtime) : runtime :=
  unless_no_board
    (λ rt, send (SendSysex SYSEX_LCD_COMMAND [LCD_SET_BACKLIGHT; Z_of_bool value])
             (logger (Debug "Setting LCD backlight to %d") rt))
    rt.

(** *** String data from the board *)

(** [data[::2]] *)
Fixpoint every_second (data : list Z) : list Z :=
  match data with
  | [] => []
  | [x] => [x]
  | x :: _ :: rest => x :: every_second rest
  end.

(** [bytearray(b).decode('ascii')]: every item must be below 128
    ([UnicodeDecodeError] is a [ValueError]). *)
Definition decode_ascii (b : list Z) : option string :=
  if forallb (λ x, (0 <=? x) && (x <? 128)) b
  then Some (Stdlib.Strings.String.string_of_list_ascii ((λ x, ascii_of_N (Z.to_N x)) <$> b))
  else None.

Definition _string_data_handler (data : list Z) (rt : runtime)
  : option py_exn * runtime :=
  match decode_ascii (every_second data) with
  | None => (Some ValueError, rt)
  | Some str_data =>
      let my_logger :=
        if Stdlib.Strings.String.prefix "E:" str_data then Error
        else if Stdlib.Strings.String.prefix "W:" str_data then Warning
        else Debug in
      (None, logger (my_logger ("String data: " +:+ str_data)) rt)
  end.

(** A Firmata string message carries every character as a pair of 7-bit
    values, low part first. *)
Definition firmata_string (text : string) : list Z :=
  flat_map (λ x, [x `mod` 128; Z.shiftr x 7]) (utf8_bytes text).

(** *** Calls in sequence *)

(** A call of one of the operations of the service. *)
Inductive op :=
| OpWrite (data : list Z)
| OpReset
| OpSendVirtualwireCommand (recipient command : Z) (args : list vw_arg)
| OpSetPinMode (pin_number mode : Z)
| OpSetupDigital (pin_nr : Z) (get_pin : option py_exn)
| OpSetupPwm (pin_nr : Z) (get_pin : option py_exn)
| OpChangeDigital (pin_nr : Z) (value : StatusValue)
| OpCleanupDigitalActuator (pin_nr : Z)
| OpConfigureSampleRate
| OpConfigureInstantDigitalReporting
| OpConfigureVirtualwire
| OpConfigureLcd
| OpConfigureAnalogReference
| OpLcdPrint (value : string)
| OpLcdClear
| OpLcdSetCursor (col row : Z)
| OpLcdSetReporting (value : bool)
| OpLcdSetBacklight (value : bool)
| OpSubscribeDigitalBroadcast (sensor : VWSensor) (source_device : Z)
| OpUnsubscribeDigitalBroadcast (sensor : VWSensor) (source_device : Z)
| OpSubscribeAnalogBroadcast (sensor : VWSensor) (source_device : Z)
| OpUnsubscribeAnalogBroadcast (sensor : VWSensor) (source_device : Z)
| OpVirtualwireMessage (sender_address command : Z) (data : list Z)
| OpStringData (data : list Z).

Definition run_op (o : op) (rt : runtime) : option py_exn * runtime :=
  match o with
  | OpWrite data => write data rt
  | OpReset => (None, reset rt)
  | OpSendVirtualwireCommand r c args => send_virtualwire_command r c args rt
  | OpSetPinMode p m => set_pin_mode p m rt
  | OpSetupDigital p g => setup_digital p g rt
  | OpSetupPwm p g => setup_pwm p g rt
  | OpChangeDigital p v => change_digital p v rt
  | OpCleanupDigitalActuator p => (None, cleanup_digital_actuator p rt)
  | OpConfigureSampleRate => (None, configure_sample_rate rt)
  | OpConfigureInstantDigitalReporting => (None, configure_instant_digital_reporting rt)
  | OpConfigureVirtualwire => (None, configure_virtualwire rt)
  | OpConfigureLcd => (None, configure_lcd rt)
  | OpConfigureAnalogReference => (None, configure_analog_reference rt)
  | OpLcdPrint v => lcd_print v rt
  | OpLcdClear => (None, lcd_clear rt)
  | OpLcdSetCursor c r => lcd_set_cursor c r rt
  | OpLcdSetReporting v => (None, lcd_set_reporting v rt)
  | OpLcdSetBacklight v => (None, lcd_set_backlight v rt)
  | OpSubscribeDigitalBroadcast s d =>
      (None, subscribe_virtualwire_digital_broadcast s d rt)
  | OpUnsubscribeDigitalBroadcast s d => unsubscribe_virtualwire_digital_broadcast s d rt
  | OpSubscribeAnalogBroadcast s d =>
      (None, subscribe_virtualwire_analog_broadcast s d rt)
  | OpUnsubscribeAnalogBroadcast s d => unsubscribe_virtualwire_analog_broadcast s d rt
  | OpVirtualwireMessage a c data => _virtualwire_message_callback a c data rt
  | OpStringData data => _string_data_handler data rt
  end.

(** The calls one after the other, each caller going on after an
    exception; the exceptions met are collected. *)
Fixpoint run_ops (ops : list op) (rt : runtime) : list py_exn * runtime :=
  match ops with
  | [] => ([], rt)
  | o :: ops' =>
      let '(e, rt') := run_op o rt in
      let '(es, rt'') := run_ops ops' rt' in
      (match e with Some e => e :: es | None => es end, rt'')
  end.

(** The sensors subscribed to digital broadcasts of a device. *)
Definition digital_subscribers (rt : runtime) (source_device : Z) : list VWSensor :=
  default [] (_sens_virtualwire_digital (svc rt) !! source_device).

(** The messages that [lcd_print] sends for the given lines, the first of
    them going to row [first_row]: for each line the cursor is set to
    column 0 of its row, then the line is printed. *)
Definition lcd_line_messages (first_row : nat) (lines : list string)
  : list hw_event :=
  concat (imap (λ i line,
                  [SendSysex SYSEX_LCD_COMMAND
                     [LCD_SET_CURSOR; 0; Z.of_nat (first_row + i)];
                   SendSysex SYSEX_LCD_COMMAND
                     ([LCD_PRINT] ++ utf8_bytes line ++ [0])%list])
               lines).

(** A service with the default traits, before [setup]. *)
Definition default_service : ArduinoService :=
  {| device := "/dev/ttyUSB0"; sample_rate := 500; home_address := 0;
     device_address := 0; virtualwire_tx_pin := 0; virtualwire_rx_pin := 0;
     virtualwire_ptt_pin := 0; lcd_port := 0; lcd_columns := 16; lcd_rows := 2;
     lcd_reporting := false; wakeup_pin := 0; virtualwire_speed := 2;
     keep_alive := true; analog_reference := -1;
     instant_digital_reporting := true; is_mocked := false;
     _board := None; _lock := None;
     _sens_virtualwire_digital := ∅; _sens_virtualwire_analog := ∅;
     _act_digital := ∅ |}.

Definition fresh_runtime : runtime :=
  {| svc := default_service; hw := []; logs := []; status_calls := [] |}.

End Arduino.

(** ** Services and tags of the system *)

(** A service object as [System] handles it: its identity, the name of its
    class and whether [ser.system] is set. *)
Record Service := mkServiceObject {
  service_id : nat;
  service_class : string;
  service_has_system : bool
}.

(** [service in self.services]; service objects are compared by identity. *)
Definition service_in (service : Service) (services : list Service) : bool :=
  bool_decide (service_id service ∈ service_id <$> services).

(** [System.register_service] *)
Definition register_service (service : Service) (services : list Service)
  : list Service :=
  if negb (service_in service services) then (services ++ [service])%list
  else services.

(** [System.services_by_name]: a [defaultdict(list)] filled in the order of
    [self.services]. *)
Definition services_by_name (services : list Service) : gmap string (list Service) :=
  foldl (λ srvs i,
           <[service_class i := (default [] (srvs !! service_class i) ++ [i])%list]> srvs)
        ∅ services.

(** [System.service_names] *)
Definition service_names (services : list Service) : gset string :=
  dom (services_by_name services).

(** [l[i]] for a Python list: negative indices count from the end,
    [None] stands for [IndexError]. *)
Definition py_getitem {A} (l : list A) (i : Z) : option A :=
  if 0 <=? i then l !! Z.to_nat i
  else if - Z.of_nat (length l) <=? i then l !! Z.to_nat (Z.of_nat (length l) + i)
  else None.

(** How [request_service] ends: [return] without a value, the service
    (and whether [ser.setup_system(self, id=id)] was called on it first),
    or the [IndexError] of [srvs[id]]. *)
Inductive request_result :=
| NoService
| GotService (ser : Service) (setup_system_called : bool)
| IndexError.

(** [System.request_service] *)
Definition request_service (services : list Service) (type : string) (id : Z)
  : request_result :=
  match services_by_name services !! type with
  | None | Some [] => NoService
  | Some srvs =>
      match py_getitem srvs id with
      | None => IndexError
      | Some ser => GotService ser (negb (service_has_system ser))
      end
  end.

(** [System._get_all_tags]; [tags] gives the elements of [i.tags] in the
    order the loop meets them. *)
Definition _get_all_tags (tags : SystemObject → list string)
    (objs : list SystemObject) : gset string :=
  foldl (λ newset i,
           foldl (λ newset j, if str_truthy j then {[j]} ∪ newset else newset)
                 newset (tags i))
        ∅ objs.

(** ** Vocabulary of the statements *)

(** Running [save_state] on a disk, starting from an empty trace. *)
Definition run_save_state (now : Z) (self : System) (fs : gmap string file) : world :=
  (save_state now self {| files := fs; trace := [] |}).2.

(** A sequence of saves of one system whose objects change in between:
    each entry gives the time of the save and the objects at that time. *)
Definition run_saves (fname : string) (backups : Z)
    (saves : list (Z * list SystemObject)) (fs : gmap string file)
  : gmap string file :=
  foldl (λ fs '(now, objs),
           files (run_save_state now (mkSystem fname backups objs) fs))
        fs saves.

(** The file that one save leaves at [self.filename]. *)
Definition snapshot_file (save : Z * list SystemObject) : file :=
  {| mtime := save.1;
     content := Pickle STATEFILE_VERSION save.2 (editable_config save.2) |}.

(** The [os.rename] calls of a trace, in order. *)
Definition rename_calls (t : list event) : list (string * string) :=
  omap (λ e, match e with OsRename src dst _ => Some (src, dst) | _ => None end) t.


(** Each event of a trace paired with whether the queue mutex is held
    while it happens. *)
Fixpoint annotate (held : bool) (t : list event) : list (event * bool) :=
  match t with
  | [] => []
  | MutexAcquire :: t' => (MutexAcquire, held) :: annotate true t'
  | MutexRelease :: t' => (MutexRelease, held) :: annotate false t'
  | e :: t' => (e, held) :: annotate held t'
  end.

(** The specification's reading of the guarded section: nothing but the
    copy of the object list happens while the mutex is held, in particular
    no serialization to the file. *)
Definition only_copy_guarded (t : list event) : Prop :=
  ∀ e, (e, true) ∈ annotate false t → e = CopyObjects ∨ e = MutexRelease.

Definition is_OsRename (e : event) : Prop :=
  match e with OsRename _ _ _ => True | _ => False end.

(** The disk after one pass of the rename loop body at index [i]. *)
Definition rename_step (fname : string) (fs : gmap string file) (i : nat)
  : gmap string file :=
  match fs !! backup_fname fname i with
  | Some f => <[backup_fname fname (i + 1)%nat := f]> (delete (backup_fname fname i) fs)
  | None => fs
  end.

(** The disk after the whole rename loop over [reversed(range(n))]. *)
Definition rotate (fname : string) (n : nat) (fs : gmap string file)
  : gmap string file :=
  foldl (rename_step fname) fs (rev (seq 0 n)).

Definition not_mutex_event (e : event) : Prop :=
  e ≠ MutexAcquire ∧ e ≠ MutexRelease.

(** Naming a sequence of objects one after the other: each request gives
    the class name, [name] and [name_from_system] of an object; the object
    gets what [get_unique_name] returns for it (the probe run for
    [size ns + 1] rounds) and is registered under that name. *)
Fixpoint name_all (ns : gset string) (reqs : list (string * string * string))
  : option (list string) :=
  match reqs with
  | [] => Some []
  | (class_name, name, name_from_system) :: reqs' =>
      match get_unique_name (S (size ns)) ns class_name name name_from_system with
      | None => None
      | Some newname => cons newname <$> name_all ({[newname]} ∪ ns) reqs'
      end
  end.

(** * Facts *)

(** ** Strings and file names *)

Lemma str_truthy_true (s : string) : str_truthy s = true ↔ s ≠ "".
Proof. destruct s; simpl; split; congruence. Qed.

Lemma str_truthy_false (s : string) : str_truthy s = false ↔ s = "".
Proof. destruct s; simpl; split; congruence. Qed.

Lemma length_app (s t : string) :
  String.length (s +:+ t) = (String.length s + String.length t)%nat.
Proof.
  induction s as [|a s IH]; [done|].
  change (String a s +:+ t) with (String a (s +:+ t)).
  simpl. by rewrite IH.
Qed.

Lemma append_ne_self (s t : string) : t ≠ "" → s +:+ t ≠ s.
Proof.
  intros Ht Heq. apply (f_equal String.length) in Heq.
  rewrite length_app in Heq.
  destruct t; [done | simpl in Heq; lia].
Qed.

Lemma fmt_s_dot_d_inj (s : string) (i j : nat) :
  fmt_s_dot_d s i = fmt_s_dot_d s j → i = j.
Proof.
  unfold fmt_s_dot_d. intros H.
  apply (inj (String.app s)) in H.
  apply (inj (String.app ".")) in H.
  by apply (inj pretty) in H.
Qed.

Lemma fmt_s_dot_d_ne (s : string) (i : nat) : fmt_s_dot_d s i ≠ s.
Proof. unfold fmt_s_dot_d. by apply append_ne_self. Qed.

Lemma backup_fname_inj (s : string) (i j : nat) :
  backup_fname s i = backup_fname s j → i = j.
Proof.
  unfold backup_fname.
  destruct (Nat.eqb_spec i 0) as [->|Hi], (Nat.eqb_spec j 0) as [->|Hj];
    intros H; try done.
  - symmetry in H. by apply fmt_s_dot_d_ne in H.
  - by apply fmt_s_dot_d_ne in H.
  - by apply fmt_s_dot_d_inj in H.
Qed.

Lemma backup_fname_S (s : string) (i : nat) :
  backup_fname s (S i) = fmt_s_dot_d s (S i).
Proof. done. Qed.

(** ** The rename loop *)

Lemma rotate_backup_run (fname : string) (i : nat) (w : world) :
  rotate_backup fname i w
  = (Ok tt,
     {| files := rename_step fname (files w) i;
        trace := trace w ++ [OsRename (backup_fname fname i)
                               (fmt_s_dot_d fname (i + 1)%nat)
                               (bool_decide (is_Some (files w !! backup_fname fname i)))] |}).
Proof.
  unfold rotate_backup, try_except, os_rename, bind, get_files, rename_step.
  simpl. rewrite Nat.add_1_r, backup_fname_S.
  by destruct (files w !! backup_fname fname i) as [f|] eqn:Hf.
Qed.

Lemma for_each_rotate_run (fname : string) (l : list nat) (w : world) :
  ∃ evs,
    for_each l (rotate_backup fname) w
    = (Ok tt, {| files := foldl (rename_step fname) (files w) l;
                 trace := trace w ++ evs |})
    ∧ Forall is_OsRename evs
    ∧ rename_calls evs
      = (λ i, (backup_fname fname i, fmt_s_dot_d fname (i + 1)%nat)) <$> l.
Proof.
  revert w. induction l as [|i l IH]; intros w.
  - exists []. simpl. rewrite app_nil_r. by destruct w.
  - simpl. unfold bind at 1. rewrite rotate_backup_run.
    edestruct IH as (evs & Hrun & Hall & Hcalls).
    eexists (_ :: evs). split_and!.
    + rewrite Hrun. simpl. by rewrite <-app_assoc.
    + constructor; [done | exact Hall].
    + simpl. by rewrite Hcalls.
Qed.

(** ** One run of [save_state] *)

Lemma save_state_run (now : Z) (self : System) (w : world) :
  filename self ≠ "" →
  ∃ evs,
    save_state now self w
    = (Ok tt,
       {| files := <[filename self := snapshot_file (now, objects self)]>
                     (rotate (filename self) (Z.to_nat (num_state_backups self))
                        (files w));
          trace := trace w ++ [LogDebug "Saving system state"] ++ evs ++
                   [OpenWb (filename self); MutexAcquire; CopyObjects; BuildConfig;
                    PickleDump (filename self); MutexRelease;
                    Close (filename self)] |})
    ∧ Forall is_OsRename evs
    ∧ rename_calls evs
      = (λ i, (backup_fname (filename self) i,
               fmt_s_dot_d (filename self) (i + 1)%nat))
        <$> reversed_range (num_state_backups self).
Proof.
  intros Hname. apply str_truthy_true in Hname.
  unfold save_state. rewrite Hname. simpl.
  unfold bind at 1. simpl. unfold bind at 1.
  edestruct (for_each_rotate_run (filename self)
               (reversed_range (num_state_backups self))) as (evs & Hrun & Hall & Hcalls).
  rewrite Hrun. exists evs. split_and!; [|done..].
  unfold with_, open_wb, close, pickle_dump, bind, emit, get_files, put_files,
    snapshot_file, rotate, reversed_range.
  simpl. rewrite insert_insert_eq.
  f_equal. f_equal. rewrite <-!app_assoc. done.
Qed.

Lemma save_state_files (now : Z) (self : System) (fs : gmap string file) :
  filename self ≠ "" →
  files (run_save_state now self fs)
  = <[filename self := snapshot_file (now, objects self)]>
      (rotate (filename self) (Z.to_nat (num_state_backups self)) fs).
Proof.
  intros Hname. unfold run_save_state.
  destruct (save_state_run now self {| files := fs; trace := [] |} Hname)
    as (evs & -> & _). done.
Qed.

(** ** The rotation on the family of backup names *)

Lemma rotate_S (fname : string) (n : nat) (fs : gmap string file) :
  rotate fname (S n) fs = rotate fname n (rename_step fname fs n).
Proof. unfold rotate. by rewrite seq_S, rev_app_distr. Qed.

Lemma rename_step_lookup (fname : string) (fs : gmap string file) (n j : nat) :
  rename_step fname fs n !! backup_fname fname j
  = if decide (j = n) then None
    else if decide (j = S n) then
      match fs !! backup_fname fname n with
      | Some f => Some f
      | None => fs !! backup_fname fname (S n)
      end
    else fs !! backup_fname fname j.
Proof.
  unfold rename_step. rewrite Nat.add_1_r.
  destruct (fs !! backup_fname fname n) as [f|] eqn:Hf.
  - repeat case_decide; subst.
    + rewrite lookup_insert_ne, lookup_delete_eq; [done|].
      intros ?%backup_fname_inj. lia.
    + by rewrite lookup_insert_eq.
    + rewrite lookup_insert_ne, lookup_delete_ne; [done|..];
        intros ?%backup_fname_inj; lia.
  - repeat case_decide; subst; done.
Qed.

Lemma rename_step_other (fname : string) (fs : gmap string file) (n : nat)
    (path : string) :
  (∀ j, path ≠ backup_fname fname j) →
  rename_step fname fs n !! path = fs !! path.
Proof.
  intros Hpath. unfold rename_step.
  destruct (fs !! backup_fname fname n) as [f|]; [|done].
  rewrite lookup_insert_ne, lookup_delete_ne; [done|..]; intros H; by eapply Hpath.
Qed.

Lemma rotate_other (fname : string) (n : nat) (fs : gmap string file)
    (path : string) :
  (∀ j, path ≠ backup_fname fname j) →
  rotate fname n fs !! path = fs !! path.
Proof.
  intros Hpath. revert fs. induction n as [|n IH]; intros fs; [done|].
  rewrite rotate_S, IH. by apply rename_step_other.
Qed.

Lemma rotate_lookup (fname : string) (n : nat) (fs : gmap string file) (j : nat) :
  rotate fname n fs !! backup_fname fname j
  = if decide (j = 0%nat) then
      (if decide (n = 0%nat) then fs !! backup_fname fname 0 else None)
    else if decide (j < n)%nat then fs !! backup_fname fname (j - 1)
    else if decide (j = n) then
      match fs !! backup_fname fname (n - 1) with
      | Some f => Some f
      | None => fs !! backup_fname fname n
      end
    else fs !! backup_fname fname j.
Proof.
  revert fs j. induction n as [|n IH]; intros fs j.
  - unfold rotate. simpl. repeat case_decide; try lia; subst; try done.
  - rewrite rotate_S, IH. clear IH.
    rewrite !rename_step_lookup.
    repeat case_decide; subst; try lia; try done.
    all: try (replace (S n - 1)%nat with n by lia; done).
    by destruct (fs !! backup_fname fname (n - 1)).
Qed.

(** ** A sequence of saves *)



(** ** The config mapping *)

Lemma editable_config_snoc (l : list SystemObject) (o : SystemObject) :
  editable_config (l ++ [o])
  = if getattr_user_editable o
    then <[name o := status o]> (editable_config l)
    else editable_config l.
Proof. unfold editable_config. by rewrite foldl_app. Qed.

Lemma editable_config_sound (objs : list SystemObject) (n : string) (s : StatusValue) :
  editable_config objs !! n = Some s →
  ∃ o, o ∈ objs ∧ getattr_user_editable o = true ∧ name o = n ∧ status o = s.
Proof.
  induction objs as [|o objs IH] using rev_ind; [done|].
  rewrite editable_config_snoc.
  destruct (getattr_user_editable o) eqn:He.
  - destruct (decide (name o = n)) as [<-|Hne].
    + rewrite lookup_insert_eq. intros [= <-]. exists o.
      split; [apply elem_of_app; right; by apply list_elem_of_singleton | done].
    + rewrite lookup_insert_ne by done. intros Hl.
      destruct (IH Hl) as (o' & ? & ?). exists o'.
      split; [apply elem_of_app; by left | done].
  - intros Hl. destruct (IH Hl) as (o' & ? & ?). exists o'.
    split; [apply elem_of_app; by left | done].
Qed.

Lemma editable_config_complete (objs : list SystemObject) (o : SystemObject) :
  NoDup (name <$> objs) →
  o ∈ objs → getattr_user_editable o = true →
  editable_config objs !! name o = Some (status o).
Proof.
  induction objs as [|o' objs IH] using rev_ind; [by intros _ ?%elem_of_nil|].
  rewrite fmap_app, NoDup_app. intros (Hnd & Hdisj & _) Hin He.
  rewrite editable_config_snoc.
  apply elem_of_app in Hin as [Hin|Hin].
  - assert (name o' ≠ name o) as Hne.
    { intros Heq. apply (Hdisj (name o)); [by apply list_elem_of_fmap_2|].
      rewrite <-Heq. by apply list_elem_of_singleton. }
    destruct (getattr_user_editable o'); [rewrite lookup_insert_ne by done|];
      by apply IH.
  - apply list_elem_of_singleton in Hin as ->. rewrite He.
    by rewrite lookup_insert_eq.
Qed.

(** ** The guarded section *)

Lemma annotate_app_plain (held : bool) (l1 l2 : list event) :
  Forall not_mutex_event l1 →
  annotate held (l1 ++ l2) = (((λ e, (e, held)) <$> l1) ++ annotate held l2)%list.
Proof.
  induction 1 as [|e l1 [? ?] _ IH]; [done|].
  destruct e; simpl; by rewrite ?IH.
Qed.

Lemma is_OsRename_not_mutex (evs : list event) :
  Forall is_OsRename evs → Forall not_mutex_event evs.
Proof.
  intros H. eapply Forall_impl; [exact H|].
  intros e He. by destruct e.
Qed.

(** * Claims about [save_state] *)

(** C10: when [System.filename] is empty, [save_state] logs an error and
    returns; it renames nothing and opens nothing, the files on disk are
    those it found. *)
Theorem save_state_without_filename (now : Z) (self : System) (w : world) :
  filename self = "" →
  save_state now self w
  = (Ok tt,
     {| files := files w;
        trace := trace w ++
                 [LogError "Filename not specified. Could not save state"] |}).
Proof. intros Hname. unfold save_state. by rewrite Hname. Qed.

Lemma save_state_without_filename_witness :
  let disk : gmap string file :=
    {[ "state" := mkFile 3 (Pickle 1 [] ∅); "state.1" := mkFile 2 NotAPickle ]} in
  save_state 9 (mkSystem "" 5 [mkObject "lamp" (SBool true) (Some true)])
    {| files := disk; trace := [] |}
  = (Ok tt,
     {| files := disk;
        trace := [LogError "Filename not specified. Could not save state"] |}).
Proof.
  exact (save_state_without_filename 9
           (mkSystem "" 5 [mkObject "lamp" (SBool true) (Some true)])
           {| files := {[ "state" := mkFile 3 (Pickle 1 [] ∅);
                          "state.1" := mkFile 2 NotAPickle ]};
              trace := [] |} eq_refl).
Defined.

(** C4: the config mapping that [save_state] pickles holds exactly the
    [(name, status)] pairs of the objects whose [user_editable] attribute
    is true (names being unique in a system), and nothing else: an entry
    is a status, never the state of an object that is not editable. *)
Theorem save_state_editable_config (now : Z) (self : System) (fs : gmap string file) :
  filename self ≠ "" →
  NoDup (name <$> objects self) →
  ∃ config,
    files (run_save_state now self fs) !! filename self
    = Some {| mtime := now;
              content := Pickle STATEFILE_VERSION (objects self) config |}
    ∧ ∀ n s, config !! n = Some s ↔
             ∃ o, o ∈ objects self ∧ user_editable o = Some true
                  ∧ name o = n ∧ status o = s.
Proof.
  intros Hname Hnd. exists (editable_config (objects self)). split.
  - rewrite save_state_files by done. by rewrite lookup_insert_eq.
  - intros n s. split.
    + intros (o & Hin & He & ? & ?)%editable_config_sound.
      exists o. split_and!; try done.
      unfold getattr_user_editable in He. by destruct (user_editable o) as [[]|].
    + intros (o & Hin & He & <- & <-).
      apply editable_config_complete; try done.
      unfold getattr_user_editable. by rewrite He.
Qed.

Lemma save_state_editable_config_witness :
  let self := mkSystem "state" 5
                [mkObject "lamp" (SBool true) (Some true);
                 mkObject "door" (SBool false) None;
                 mkObject "level" (SInt 3) (Some false);
                 mkObject "target" (SInt 21) (Some true)] in
  ∃ config,
    files (run_save_state 9 self ∅) !! "state"
    = Some {| mtime := 9; content := Pickle STATEFILE_VERSION (objects self) config |}
    ∧ ∀ n s, config !! n = Some s ↔
             ∃ o, o ∈ objects self ∧ user_editable o = Some true
                  ∧ name o = n ∧ status o = s.
Proof.
  intros self.
  refine (save_state_editable_config 9 self ∅ _ _).
  - discriminate.
  - apply (bool_decide_unpack _). by vm_compute.
Defined.

(** C5, as the specification has it, fails: the pickle is written to the
    file while the queue mutex is held, so the guarded section holds more
    than the copy of the object list. *)
Lemma save_state_dump_inside_guard :
  let t := trace (run_save_state 9
                    (mkSystem "state" 5 [mkObject "lamp" (SBool true) (Some true)])
                    ∅) in
  (PickleDump "state", true) ∈ annotate false t
  ∧ ¬ only_copy_guarded t.
Proof.
  assert ((PickleDump "state", true)
          ∈ annotate false
              (trace (run_save_state 9
                        (mkSystem "state" 5
                           [mkObject "lamp" (SBool true) (Some true)]) ∅))) as Hin.
  { vm_compute.
    repeat (first [apply list_elem_of_here | apply list_elem_of_further]). }
  split; [exact Hin|].
  intros Hclaim. by destruct (Hclaim _ Hin).
Qed.

(** C5, amended: [save_state] renames the backups and opens the snapshot
    file before it takes the queue mutex; the copy of the object list,
    the construction of the config and the [pickle.dump] to the file all
    happen while the mutex is held; the mutex is released before the file
    is closed. *)
Theorem save_state_guarded_section (now : Z) (self : System) (fs : gmap string file) :
  filename self ≠ "" →
  ∃ renames,
    Forall is_OsRename renames
    ∧ annotate false (trace (run_save_state now self fs))
      = (((λ e, (e, false)) <$> (LogDebug "Saving system state" :: renames))
         ++ [(OpenWb (filename self), false);
             (MutexAcquire, false);
             (CopyObjects, true);
             (BuildConfig, true);
             (PickleDump (filename self), true);
             (MutexRelease, true);
             (Close (filename self), false)])%list.
Proof.
  intros Hname. unfold run_save_state.
  destruct (save_state_run now self {| files := fs; trace := [] |} Hname)
    as (evs & -> & Hall & _).
  exists evs. split; [done|]. simpl.
  rewrite annotate_app_plain by by apply is_OsRename_not_mutex.
  done.
Qed.

Lemma save_state_guarded_section_witness :
  ∃ renames,
    Forall is_OsRename renames
    ∧ annotate false
        (trace (run_save_state 9
                  (mkSystem "state" 2 [mkObject "lamp" (SBool true) (Some true)]) ∅))
      = (((λ e, (e, false)) <$> (LogDebug "Saving system state" :: renames))
         ++ [(OpenWb "state", false);
             (MutexAcquire, false);
             (CopyObjects, true);
             (BuildConfig, true);
             (PickleDump "state", true);
             (MutexRelease, true);
             (Close "state", false)])%list.
Proof.
  refine (save_state_guarded_section 9
            (mkSystem "state" 2 [mkObject "lamp" (SBool true) (Some true)]) ∅ _).
  discriminate.
Defined.




(** Four saves with two backups, run on an empty disk: three files. *)
Example four_saves_two_backups :
  let disk := run_saves "state" 2 [(1, []); (2, []); (3, []); (4, [])] ∅ in
  mtime <$> disk !! "state" = Some 4
  ∧ mtime <$> disk !! "state.1" = Some 3
  ∧ mtime <$> disk !! "state.2" = Some 2
  ∧ disk !! "state.3" = None
  ∧ size disk = 3%nat.
Proof. vm_compute. split_and!; done. Qed.

(** * Claims about [load_or_create] *)

Lemma load_pickle_mismatch (fs : gmap string file) (fname : string) (f : file)
    (v : Z) (objs : list SystemObject) (cfg : gmap string StatusValue) :
  fs !! fname = Some f →
  content f = Pickle v objs cfg →
  v ≠ STATEFILE_VERSION →
  load_pickle fs fname
  = Raise (RuntimeError
             ("Wrong statefile version, please remove state file " +:+ fname)).
Proof.
  intros Hf Hc Hv. unfold load_pickle. rewrite Hf, Hc.
  by rewrite bool_decide_true.
Qed.

Lemma load_pickle_current (fs : gmap string file) (fname : string) (f : file)
    (objs : list SystemObject) (cfg : gmap string StatusValue) :
  fs !! fname = Some f →
  content f = Pickle STATEFILE_VERSION objs cfg →
  load_pickle fs fname = Ok (objs, cfg).
Proof. intros Hf Hc. unfold load_pickle. by rewrite Hf, Hc. Qed.

Lemma prompt_loop_cases (answers : list string) (env : environment) (fname : string) :
  prompt_loop answers env fname = create env fname
  ∨ prompt_loop answers env fname = load env fname
  ∨ (prompt_loop answers env fname = Raise EOFError
     ∧ Forall (λ a, a ≠ "y" ∧ a ≠ "n") answers).
Proof.
  induction answers as [|a answers IH]; simpl.
  - right; right. by split.
  - destruct (String.eqb_spec a "y") as [->|Hy]; [by left|].
    destruct (String.eqb_spec a "n") as [->|Hn]; [by right; left|].
    destruct IH as [IH|[IH|[IH Hall]]]; [by left | by right; left |].
    right; right. split; [done|]. by constructor.
Qed.

Lemma os_path_isfile_true (fs : gmap string file) (path : string) (f : file) :
  fs !! path = Some f → os_path_isfile fs path = true.
Proof. intros Hf. unfold os_path_isfile. rewrite bool_decide_true; eauto. Qed.

Lemma apply_load_config_empty (own : gmap string own_attribute)
    (objs : list SystemObject) :
  apply_load_config own ∅ objs = Ok objs.
Proof.
  unfold apply_load_config.
  rewrite bool_decide_true by apply map_Forall_empty.
  f_equal. rewrite <-(list_fmap_id objs) at 2.
  apply list_fmap_ext. intros _ o _. unfold load_status.
  rewrite lookup_empty. by destruct (own !! name o).
Qed.

Lemma System_init_config (static : list SystemObject)
    (own : gmap string own_attribute)
    (cfg : gmap string StatusValue) (fname : string) :
  System_init static own None (Some cfg) fname
  = match apply_load_config own cfg static with
    | Ok objs => Ok (mkSystem fname 5 objs)
    | Raise e => Raise e
    end.
Proof.
  unfold System_init, config_truthy. simpl. case_bool_decide as Hcfg; simpl; [|done].
  by rewrite Hcfg, apply_load_config_empty.
Qed.

Lemma apply_load_config_ok (own : gmap string own_attribute)
    (cfg : gmap string StatusValue) (objs : list SystemObject) :
  (∀ key s, cfg !! key = Some s → own !! key ≠ Some RejectsStatus) →
  apply_load_config own cfg objs = Ok (load_status own cfg <$> objs).
Proof.
  intros Hkeys. unfold apply_load_config. by rewrite bool_decide_true.
Qed.

Lemma apply_load_config_raises (own : gmap string own_attribute)
    (cfg : gmap string StatusValue) (objs : list SystemObject)
    (key : string) (s : StatusValue) :
  cfg !! key = Some s →
  own !! key = Some RejectsStatus →
  apply_load_config own cfg objs = Raise AttributeError.
Proof.
  intros Hkey Hown. unfold apply_load_config. rewrite bool_decide_false; [done|].
  intros Hall. by apply (Hall key s Hkey).
Qed.

Lemma load_status_lookup (own : gmap string own_attribute)
    (cfg : gmap string StatusValue) (objs : list SystemObject)
    (i : nat) (o : SystemObject) :
  objs !! i = Some o →
  ∃ o', (load_status own cfg <$> objs) !! i = Some o'
        ∧ name o' = name o
        ∧ user_editable o' = user_editable o
        ∧ status o' = match own !! name o with
                      | Some _ => status o
                      | None => default (status o) (cfg !! name o)
                      end.
Proof.
  intros Ho. rewrite list_lookup_fmap, Ho. simpl.
  eexists; split; [done|]. unfold load_status.
  destruct (own !! name o); [done|]. by destruct (cfg !! name o).
Qed.

(** C1: a snapshot file whose recorded version differs from
    [STATEFILE_VERSION] is never loaded: [load_pickle] raises
    [RuntimeError], so do the load path and the create path, and
    [load_or_create] returns no [System] whatever its arguments, the
    command line and the answers at the prompt are (it raises that
    [RuntimeError], or [EOFError] when the prompt gets neither [y] nor [n]
    before standard input ends). *)
Theorem load_or_create_version_mismatch (env : environment) (fname : string)
    (no_input create_new : bool) (f : file)
    (v : Z) (objs : list SystemObject) (cfg : gmap string StatusValue) :
  fname ≠ "" →
  env_files env !! fname = Some f →
  content f = Pickle v objs cfg →
  v ≠ STATEFILE_VERSION →
  let err := RuntimeError
               ("Wrong statefile version, please remove state file " +:+ fname) in
  load_pickle (env_files env) fname = Raise err
  ∧ load env fname = Raise err
  ∧ create env fname = Raise err
  ∧ (∀ sys, load_or_create env fname no_input create_new ≠ Ok sys)
  ∧ (load_or_create env fname no_input create_new = Raise err
     ∨ (load_or_create env fname no_input create_new = Raise EOFError
        ∧ effective_no_input env no_input = false
        ∧ Forall (λ a, a ≠ "y" ∧ a ≠ "n") (stdin env))).
Proof.
  intros Hname Hf Hc Hv err.
  pose proof (load_pickle_mismatch _ _ _ _ _ _ Hf Hc Hv) as Hlp.
  assert (load env fname = Raise err) as Hload.
  { unfold load. by rewrite Hlp. }
  assert (create env fname = Raise err) as Hcreate.
  { unfold create. apply str_truthy_true in Hname. by rewrite Hname, Hlp. }
  assert (load_or_create env fname no_input create_new = Raise err
          ∨ (load_or_create env fname no_input create_new = Raise EOFError
             ∧ effective_no_input env no_input = false
             ∧ Forall (λ a, a ≠ "y" ∧ a ≠ "n") (stdin env))) as Hcases.
  { unfold load_or_create.
    rewrite (proj2 (str_truthy_true fname) Hname), (os_path_isfile_true _ _ _ Hf).
    simpl.
    destruct (savefile_more_recent env fname
              && negb (effective_create_new env create_new)); [by left|].
    destruct (effective_no_input env no_input) eqn:Hni; [by left|].
    destruct (prompt_loop_cases (stdin env) env fname) as [->|[->|[-> Hall]]];
      [by left | by left | by right]. }
  split_and!; try done.
  intros sys Hsys. destruct Hcases as [Hr|[Hr _]]; congruence.
Qed.

Lemma load_or_create_version_mismatch_witness :
  let env := mkEnv false false
               {[ "state" := mkFile 10 (Pickle 0 [mkObject "lamp" (SBool true) (Some true)]
                                          {[ "lamp" := SBool true ]}) ]}
               5 ["maybe"; "n"] [mkObject "lamp" (SBool false) (Some true)] in
  let err := RuntimeError "Wrong statefile version, please remove state file state" in
  load_pickle (env_files env) "state" = Raise err
  ∧ load env "state" = Raise err
  ∧ create env "state" = Raise err
  ∧ (∀ sys, load_or_create env "state" false true ≠ Ok sys)
  ∧ (load_or_create env "state" false true = Raise err
     ∨ (load_or_create env "state" false true = Raise EOFError
        ∧ effective_no_input env false = false
        ∧ Forall (λ a, a ≠ "y" ∧ a ≠ "n") (stdin env))).
Proof.
  intros env err.
  refine (load_or_create_version_mismatch env "state" false true
            (mkFile 10 (Pickle 0 [mkObject "lamp" (SBool true) (Some true)]
                          {[ "lamp" := SBool true ]}))
            0 _ _ _ _ _ _).
  - discriminate.
  - reflexivity.
  - reflexivity.
  - discriminate.
Defined.

Lemma load_or_create_existing (env : environment) (fname : string)
    (no_input create_new : bool) (f : file) :
  fname ≠ "" →
  env_files env !! fname = Some f →
  load_or_create env fname no_input create_new
  = if bool_decide (time_program env < mtime f)
       && negb (effective_create_new env create_new)
    then load env fname
    else if effective_no_input env no_input then create env fname
    else prompt_loop (stdin env) env fname.
Proof.
  intros Hname Hf. unfold load_or_create, savefile_more_recent.
  by rewrite (proj2 (str_truthy_true fname) Hname), (os_path_isfile_true _ _ _ Hf), Hf.
Qed.

Lemma load_current (env : environment) (fname : string) (f : file)
    (objs : list SystemObject) (cfg : gmap string StatusValue) :
  env_files env !! fname = Some f →
  content f = Pickle STATEFILE_VERSION objs cfg →
  load env fname = Ok (mkSystem fname 5 objs).
Proof. intros Hf Hc. unfold load. by rewrite (load_pickle_current _ _ _ _ _ Hf Hc). Qed.

Lemma create_current (env : environment) (fname : string) (f : file)
    (objs : list SystemObject) (cfg : gmap string StatusValue) :
  fname ≠ "" →
  env_files env !! fname = Some f →
  content f = Pickle STATEFILE_VERSION objs cfg →
  create env fname
  = match apply_load_config (cls_own_attributes env) cfg (cls_static_objects env) with
    | Ok objs' => Ok (mkSystem fname 5 objs')
    | Raise e => Raise e
    end.
Proof.
  intros Hname Hf Hc. unfold create.
  rewrite (proj2 (str_truthy_true fname) Hname),
    (load_pickle_current _ _ _ _ _ Hf Hc).
  apply System_init_config.
Qed.

(** C2, as the specification has it, fails: [create_new=True] passed to
    the call, without the [--create_new] flag, does not force [no_input].
    The prompt is shown: the answer [n] loads the snapshot although
    [create_new] was passed, the answer [y] rebuilds, and without an
    answer the call ends in [EOFError]. *)
Lemma load_or_create_keyword_still_prompts :
  let f := mkFile 9 (Pickle 1 [mkObject "lamp" (SBool true) (Some true);
                               mkObject "door" (SBool true) None]
                       {[ "lamp" := SBool true ]}) in
  let env answers :=
    mkEnv false false {[ "state" := f ]} 5 answers
      [mkObject "lamp" (SBool false) (Some true);
       mkObject "door" (SBool false) None] in
  load_or_create (env ["n"]) "state" false true
  = Ok (mkSystem "state" 5 [mkObject "lamp" (SBool true) (Some true);
                            mkObject "door" (SBool true) None])
  ∧ load_or_create (env ["n"]) "state" false true ≠ create (env ["n"]) "state"
  ∧ load_or_create (env ["y"]) "state" false true
    = Ok (mkSystem "state" 5 [mkObject "lamp" (SBool true) (Some true);
                              mkObject "door" (SBool false) None])
  ∧ load_or_create (env []) "state" false true = Raise EOFError.
Proof. split_and!; [reflexivity | by vm_compute | reflexivity | reflexivity]. Qed.

(** C2, amended: for a call with a file name whose file exists. If the
    file is newer than the running script and neither [create_new] nor
    [--create_new] is given, the snapshot is loaded, whatever [no_input]
    is. Otherwise (the file is stale, or [create_new] or [--create_new]
    is given), when [no_input], [--no_input] or [--create_new] is given,
    the system is rebuilt without a prompt; the [--create_new] flag thus
    forces [no_input], the keyword argument [create_new] alone does not:
    without [no_input] the prompt decides. Loading gives the system of
    the pickled object list. Rebuilding takes the objects of the static
    definitions and applies the config mapping read from the stale
    snapshot to them: an object named by a key takes the status recorded
    there; it ends in [AttributeError] when a key names an attribute of
    the system object itself that takes no [status]. *)
Theorem load_or_create_decision (env : environment) (fname : string)
    (no_input create_new : bool) (f : file) :
  fname ≠ "" →
  env_files env !! fname = Some f →
  (time_program env < mtime f →
   create_new = false → args_create_new env = false →
   load_or_create env fname no_input create_new = load env fname)
  ∧ (mtime f ≤ time_program env ∨ create_new = true ∨ args_create_new env = true →
     no_input = true ∨ args_no_input env = true ∨ args_create_new env = true →
     load_or_create env fname no_input create_new = create env fname)
  ∧ (mtime f ≤ time_program env ∨ create_new = true →
     no_input = false → args_no_input env = false → args_create_new env = false →
     load_or_create env fname no_input create_new
     = prompt_loop (stdin env) env fname)
  ∧ (∀ objs cfg,
       content f = Pickle STATEFILE_VERSION objs cfg →
       load env fname = Ok (mkSystem fname 5 objs)
       ∧ ((∀ key s, cfg !! key = Some s →
                    cls_own_attributes env !! key ≠ Some RejectsStatus) →
          ∃ objs',
            create env fname = Ok (mkSystem fname 5 objs')
            ∧ length objs' = length (cls_static_objects env)
            ∧ ∀ i o, cls_static_objects env !! i = Some o →
                ∃ o', objs' !! i = Some o'
                      ∧ name o' = name o
                      ∧ user_editable o' = user_editable o
                      ∧ status o'
                        = match cls_own_attributes env !! name o with
                          | Some _ => status o
                          | None => default (status o) (cfg !! name o)
                          end)
       ∧ (∀ key s, cfg !! key = Some s →
                   cls_own_attributes env !! key = Some RejectsStatus →
                   create env fname = Raise AttributeError)).
Proof.
  intros Hname Hf.
  pose proof (load_or_create_existing env fname no_input create_new f Hname Hf) as Hrun.
  unfold effective_create_new, effective_no_input in Hrun.
  split_and!.
  - intros Hnewer -> Hflag. rewrite Hrun, Hflag.
    by rewrite bool_decide_true by done.
  - intros Hstale Hni. rewrite Hrun.
    assert (bool_decide (time_program env < mtime f)
            && negb (if args_create_new env then true else create_new) = false)
      as ->.
    { destruct Hstale as [Hstale|[-> | ->]].
      - by rewrite bool_decide_false by lia.
      - rewrite andb_false_iff. right. by destruct (args_create_new env).
      - by rewrite andb_false_r. }
    destruct Hni as [-> |[-> | ->]]; try done.
    + by destruct (args_no_input env), (args_create_new env).
    + by destruct (args_create_new env).
  - intros Hstale -> Hni Hcn. rewrite Hrun, Hni, Hcn.
    destruct Hstale as [Hstale| ->].
    + by rewrite bool_decide_false by lia.
    + by rewrite andb_false_r.
  - intros objs cfg Hc. split_and!.
    + by apply (load_current env fname f objs cfg).
    + intros Hkeys.
      exists (load_status (cls_own_attributes env) cfg <$> cls_static_objects env).
      split_and!.
      * rewrite (create_current env fname f objs cfg Hname Hf Hc).
        by rewrite apply_load_config_ok.
      * by rewrite length_fmap.
      * intros i o Ho.
        destruct (load_status_lookup (cls_own_attributes env) cfg _ _ _ Ho)
          as (o' & ? & ? & ? & ?).
        by exists o'.
    + intros key s Hkey Hown.
      rewrite (create_current env fname f objs cfg Hname Hf Hc).
      by rewrite (apply_load_config_raises _ _ _ key s).
Qed.

Lemma load_or_create_decision_witness :
  let f := mkFile 3 (Pickle 1 [mkObject "lamp" (SBool true) (Some true)]
                       {[ "lamp" := SBool true; "filename" := SStr "x" ]}) in
  let env := mkEnvironment false true {[ "state" := f ]} 5 []
               [mkObject "lamp" (SBool false) (Some true);
                mkObject "door" (SBool false) None]
               {[ "filename" := RejectsStatus ]} in
  (time_program env < mtime f →
   false = false → args_create_new env = false →
   load_or_create env "state" false false = load env "state")
  ∧ (mtime f ≤ time_program env ∨ false = true ∨ args_create_new env = true →
     false = true ∨ args_no_input env = true ∨ args_create_new env = true →
     load_or_create env "state" false false = create env "state")
  ∧ (mtime f ≤ time_program env ∨ false = true →
     false = false → args_no_input env = false → args_create_new env = false →
     load_or_create env "state" false false
     = prompt_loop (stdin env) env "state")
  ∧ (∀ objs cfg,
       content f = Pickle STATEFILE_VERSION objs cfg →
       load env "state" = Ok (mkSystem "state" 5 objs)
       ∧ ((∀ key s, cfg !! key = Some s →
                    cls_own_attributes env !! key ≠ Some RejectsStatus) →
          ∃ objs',
            create env "state" = Ok (mkSystem "state" 5 objs')
            ∧ length objs' = length (cls_static_objects env)
            ∧ ∀ i o, cls_static_objects env !! i = Some o →
                ∃ o', objs' !! i = Some o'
                      ∧ name o' = name o
                      ∧ user_editable o' = user_editable o
                      ∧ status o'
                        = match cls_own_attributes env !! name o with
                          | Some _ => status o
                          | None => default (status o) (cfg !! name o)
                          end)
       ∧ (∀ key s, cfg !! key = Some s →
                   cls_own_attributes env !! key = Some RejectsStatus →
                   create env "state" = Raise AttributeError)).
Proof.
  intros f env.
  refine (load_or_create_decision env "state" false false f _ _).
  - discriminate.
  - reflexivity.
Defined.

(** A stale snapshot rebuilt without a prompt: the lamp takes the status
    recorded in the snapshot, the door keeps its static one. *)
Example rebuild_imports_config :
  load_or_create
    (mkEnv false true
       {[ "state" := mkFile 3 (Pickle 1 [mkObject "lamp" (SBool true) (Some true)]
                                 {[ "lamp" := SBool true ]}) ]}
       5 []
       [mkObject "lamp" (SBool false) (Some true); mkObject "door" (SBool false) None])
    "state" false false
  = Ok (mkSystem "state" 5
          [mkObject "lamp" (SBool true) (Some true);
           mkObject "door" (SBool false) None]).
Proof. reflexivity. Qed.

(** The same rebuild when the snapshot has an entry for [filename], which
    is a trait of the system object itself. *)
Example rebuild_stops_at_own_attribute :
  load_or_create
    (mkEnvironment false true
       {[ "state" := mkFile 3 (Pickle 1 []
                                 {[ "lamp" := SBool true; "filename" := SStr "x" ]}) ]}
       5 []
       [mkObject "lamp" (SBool false) (Some true)]
       {[ "filename" := RejectsStatus ]})
    "state" false false
  = Raise AttributeError.
Proof. reflexivity. Qed.

(** The keyword argument [create_new=True] alone, without the command-line
    flag, leaves [no_input] as it was passed: the prompt is shown, and the
    answer [n] loads the snapshot. *)
Example create_new_keyword_still_prompts :
  let env := mkEnv false false
               {[ "state" := mkFile 3 (Pickle 1 [mkObject "lamp" (SBool true) (Some true)]
                                         {[ "lamp" := SBool true ]}) ]}
               5 ["n"] [mkObject "lamp" (SBool false) (Some true)] in
  effective_no_input env false = false
  ∧ load_or_create env "state" false true = load env "state".
Proof. split; reflexivity. Qed.

(** * Claims about [get_unique_name] *)

(** ** Decimal formatting *)

Lemma pretty_N_go_length (x : N) (s : string) :
  (String.length s ≤ String.length (pretty_N_go x s))%nat.
Proof.
  revert s. induction (N.lt_wf_0 x) as [x _ IH]; intros s.
  destruct (decide (x = 0%N)) as [->|Hx]; [by rewrite pretty_N_go_0|].
  rewrite pretty_N_go_step by lia.
  etrans; [|apply IH; apply N.div_lt; lia]. simpl. lia.
Qed.

Lemma pretty_N_one_digit (x : N) :
  (x < 10)%N → pretty x = String (pretty_N_char x) "".
Proof.
  intros Hx. unfold pretty, pretty_N. case_decide as H0; [by subst|].
  rewrite pretty_N_go_step by lia.
  rewrite (N.div_small x 10), (N.mod_small x 10) by lia.
  by rewrite pretty_N_go_0.
Qed.

Lemma pretty_N_two_digits (x : N) :
  (10 ≤ x < 100)%N →
  pretty x = String (pretty_N_char (x `div` 10))
               (String (pretty_N_char (x `mod` 10)) "").
Proof.
  intros Hx. unfold pretty, pretty_N. case_decide as H0; [lia|].
  assert (1 ≤ x `div` 10 < 10)%N as Hq.
  { split; [apply N.div_le_lower_bound; lia | apply N.Div0.div_lt_upper_bound; lia]. }
  rewrite pretty_N_go_step by lia.
  rewrite pretty_N_go_step by lia.
  rewrite (N.div_small (x `div` 10) 10), (N.mod_small (x `div` 10) 10) by lia.
  by rewrite pretty_N_go_0.
Qed.

Lemma pretty_N_three_digits (x : N) :
  (100 ≤ x)%N → (3 ≤ String.length (pretty x))%nat.
Proof.
  intros Hx. unfold pretty, pretty_N. case_decide as H0; [lia|].
  assert (10 ≤ x `div` 10)%N as Hq by (apply N.div_le_lower_bound; lia).
  assert (1 ≤ (x `div` 10) `div` 10)%N as Hq' by (apply N.div_le_lower_bound; lia).
  rewrite pretty_N_go_step by lia.
  rewrite pretty_N_go_step by lia.
  rewrite pretty_N_go_step by lia.
  etrans; [|apply pretty_N_go_length]. simpl. lia.
Qed.

Lemma fmt_02d_small (c : nat) :
  (c < 10)%nat →
  fmt_02d c = String "0"%char (String (pretty_N_char (N.of_nat c)) "").
Proof.
  intros Hc. unfold fmt_02d.
  rewrite (proj2 (Nat.ltb_lt c 10)) by done.
  unfold pretty at 1, pretty_nat. rewrite pretty_N_one_digit by lia. done.
Qed.

Lemma fmt_02d_large (c : nat) : (10 ≤ c)%nat → fmt_02d c = pretty c.
Proof.
  intros Hc. unfold fmt_02d. by rewrite (proj2 (Nat.ltb_ge c 10)).
Qed.

Lemma fmt_02d_small_large (c1 c2 : nat) :
  (c1 < 10)%nat → (10 ≤ c2)%nat → fmt_02d c1 ≠ fmt_02d c2.
Proof.
  intros H1 H2. rewrite fmt_02d_small, fmt_02d_large by done.
  unfold pretty, pretty_nat.
  destruct (decide (c2 < 100)%nat) as [Hlt|Hge].
  - rewrite pretty_N_two_digits by lia. intros [= Hchar _].
    change "0"%char with (pretty_N_char 0) in Hchar.
    apply pretty_N_char_inj in Hchar; [|lia|apply N.Div0.div_lt_upper_bound; lia].
    assert (1 ≤ N.of_nat c2 `div` 10)%N by (apply N.div_le_lower_bound; lia).
    lia.
  - intros Heq. apply (f_equal String.length) in Heq.
    pose proof (pretty_N_three_digits (N.of_nat c2)). simpl in Heq. lia.
Qed.

Lemma fmt_02d_inj (c1 c2 : nat) : fmt_02d c1 = fmt_02d c2 → c1 = c2.
Proof.
  destruct (decide (c1 < 10)%nat) as [H1|H1], (decide (c2 < 10)%nat) as [H2|H2].
  - rewrite !fmt_02d_small by done. intros [= Hchar].
    apply pretty_N_char_inj in Hchar; lia.
  - intros Heq. by apply fmt_02d_small_large in Heq; [|lia..].
  - intros Heq. symmetry in Heq. by apply fmt_02d_small_large in Heq; [|lia..].
  - rewrite !fmt_02d_large by lia. apply (inj pretty).
Qed.

Lemma fmt_s_02d_inj (s : string) (c1 c2 : nat) :
  fmt_s_02d s c1 = fmt_s_02d s c2 → c1 = c2.
Proof.
  unfold fmt_s_02d. intros H.
  apply (inj (String.app s)) in H.
  apply (inj (String.app "_")) in H.
  by apply fmt_02d_inj.
Qed.

(** ** The probe *)

(** Among the first [size ns + 1] candidates one is free. *)
Lemma free_candidate (ns : gset string) (newname : string) :
  ∃ c, (c ≤ size ns)%nat ∧ fmt_s_02d newname c ∉ ns.
Proof.
  set (cands := fmt_s_02d newname <$> seq 0 (S (size ns))).
  destruct (decide (Forall (λ x, x ∈ ns) cands)) as [Hall|Hex].
  - assert (NoDup cands) as Hnd.
    { apply NoDup_fmap_2; [|apply NoDup_seq].
      intros c1 c2. apply fmt_s_02d_inj. }
    assert (list_to_set (C := gset string) cands ⊆ ns) as Hsub.
    { intros x Hx%elem_of_list_to_set. by eapply Forall_forall in Hall. }
    apply subseteq_size in Hsub.
    rewrite size_list_to_set in Hsub by done.
    unfold cands in Hsub. rewrite length_fmap, length_seq in Hsub. lia.
  - apply not_Forall_Exists in Hex; [|apply _].
    apply Exists_exists in Hex as (x & Hin & Hx).
    apply list_elem_of_fmap in Hin as (c & -> & Hc).
    apply elem_of_seq in Hc. exists c. split; [lia | done].
Qed.

Lemma probe_names_spec (ns : gset string) (newname : string) (fuel counter : nat) :
  (∃ c, (counter ≤ c < counter + fuel)%nat ∧ fmt_s_02d newname c ∉ ns) →
  ∃ c, (counter ≤ c)%nat
       ∧ probe_names ns newname fuel counter = Some (fmt_s_02d newname c)
       ∧ (fmt_s_02d newname c ∉ ns)
       ∧ ∀ c', (counter ≤ c' < c)%nat → fmt_s_02d newname c' ∈ ns.
Proof.
  revert counter. induction fuel as [|fuel IH]; intros counter (c & Hc & Hfree).
  - lia.
  - simpl. case_bool_decide as Hcur.
    + exists counter. split_and!; [lia | done | done | intros; lia].
    + destruct (IH (S counter)) as (c0 & Hc0 & Hrun & Hfree0 & Hmin).
      { exists c. split; [|done].
        destruct (decide (c = counter)) as [->|]; [done | lia]. }
      exists c0. split_and!; [lia | done | done |].
      intros c' Hc'. destruct (decide (c' = counter)) as [->|].
      * done.
      * apply Hmin. lia.
Qed.

(** C6: an object without an explicit name starts from ["Nameless_"] plus
    its type name. Whatever the starting name, [get_unique_name] returns
    (the probe ends within [size ns + 1] rounds): the starting name itself
    when it is free, otherwise the starting name with the suffix of the
    first counter, counted up from 0, whose candidate is free; every
    smaller counter's candidate is registered, and the returned name never
    is. *)
Theorem get_unique_name_unregistered (fuel : nat) (ns : gset string)
    (class_name name name_from_system : string) :
  (size ns < fuel)%nat →
  base_name class_name "" "" = "Nameless_" +:+ class_name
  ∧ ∃ newname,
      get_unique_name fuel ns class_name name name_from_system = Some newname
      ∧ (newname ∉ ns)
      ∧ (base_name class_name name name_from_system ∉ ns →
         newname = base_name class_name name name_from_system)
      ∧ (base_name class_name name name_from_system ∈ ns →
         ∃ counter,
           newname = fmt_s_02d (base_name class_name name name_from_system) counter
           ∧ ∀ c, (c < counter)%nat →
                  fmt_s_02d (base_name class_name name name_from_system) c ∈ ns).
Proof.
  intros Hfuel. split; [done|].
  unfold get_unique_name.
  set (base := base_name class_name name name_from_system).
  case_bool_decide as Hbase.
  - exists base. split_and!; try done.
  - destruct (free_candidate ns base) as (c & Hc & Hfree).
    destruct (probe_names_spec ns base fuel 0) as (c0 & _ & Hrun & Hfree0 & Hmin).
    { exists c. split; [lia | done]. }
    exists (fmt_s_02d base c0). split_and!; try done.
    intros _. exists c0. split; [done|]. intros c' Hc'. apply Hmin. lia.
Qed.

Lemma get_unique_name_unregistered_witness :
  let ns : gset string :=
    {[ "Nameless_UserBoolSensor"; "Nameless_UserBoolSensor_00";
       "Nameless_UserBoolSensor_01"; "lamp" ]} in
  base_name "UserBoolSensor" "" "" = "Nameless_" +:+ "UserBoolSensor"
  ∧ ∃ newname,
      get_unique_name 5 ns "UserBoolSensor" "" "" = Some newname
      ∧ (newname ∉ ns)
      ∧ (base_name "UserBoolSensor" "" "" ∉ ns →
         newname = base_name "UserBoolSensor" "" "")
      ∧ (base_name "UserBoolSensor" "" "" ∈ ns →
         ∃ counter,
           newname = fmt_s_02d (base_name "UserBoolSensor" "" "") counter
           ∧ ∀ c, (c < counter)%nat →
                  fmt_s_02d (base_name "UserBoolSensor" "" "") c ∈ ns).
Proof.
  intros ns.
  refine (get_unique_name_unregistered 5 ns "UserBoolSensor" "" "" _).
  vm_compute. lia.
Defined.

Example third_nameless_sensor :
  get_unique_name 5
    {[ "Nameless_UserBoolSensor"; "Nameless_UserBoolSensor_00";
       "Nameless_UserBoolSensor_01"; "lamp" ]}
    "UserBoolSensor" "" ""
  = Some "Nameless_UserBoolSensor_02".
Proof. by vm_compute. Qed.

Example explicit_name_taken :
  get_unique_name 3 {[ "lamp"; "lamp_00" ]} "UserBoolSensor" "lamp" ""
  = Some "lamp_01".
Proof. by vm_compute. Qed.

(** * Claims about [cmd_exec] *)

Module CmdExecFacts.
Import CmdExec.




(** A command whose evaluation raises an ordinary exception. *)
Example cmd_exec_reports_failure :
  let I := {| py_eval := λ _ _, inl (OtherException "NameError");
              py_exec := λ _ ns, (None, ns) |} in
  cmd_exec I ∅ "lamp.statu" (mkState ∅ [])
  = (Return (Some false),
     mkState ∅ [Info "Failed to eval cmd %s: %s" "lamp.statu"]).
Proof. reflexivity. Qed.

End CmdExecFacts.

(** * Claims about [ArduinoService] *)

Module ArduinoFacts.
Import Arduino.

Lemma unless_no_board_mocked (body : runtime → runtime) (rt : runtime) :
  _board (svc rt) = None → unless_no_board body rt = rt.
Proof. intros Hb. unfold unless_no_board. by rewrite Hb. Qed.

Lemma setup_mocked_run (os_access : bool) (open_board : Z + unit) (rt : runtime) :
  os_access = false ∨ open_board = inl ENOENT →
  setup os_access open_board rt
  = (None,
     with_svc (set_lock (Some tt))
       (with_svc (set_board None true)
          (logger mocked_warning
             (logger (Debug "Initializing Arduino subsystem") rt)))).
Proof.
  intros Hfail. unfold setup.
  destruct Hfail as [->| ->]; simpl; [done|]. by destruct os_access.
Qed.

(** C7: when the device file is missing or unreadable ([os.access] on it
    fails), [setup] returns normally after logging, at warning level, that
    the device is not available and will be mocked, with no board and
    [is_mocked] set, and without any hardware traffic. In that state [change_digital], [write],
    [send_virtualwire_command] and [set_pin_mode] return without touching
    the hardware or the service, and an actuator pin can still be set up
    and driven. *)
Theorem setup_degrades_to_mocked (os_access : bool) (open_board : Z + unit)
    (rt : runtime) :
  os_access = false →
  let rt' := (setup os_access open_board rt).2 in
  (setup os_access open_board rt).1 = None
  ∧ _board (svc rt') = None
  ∧ is_mocked (svc rt') = true
  ∧ hw rt' = hw rt
  ∧ logs rt'
    = (logs rt
       ++ [Debug "Initializing Arduino subsystem";
           Warning "Your arduino device %s is not available. Arduino will be mocked."])%list
  ∧ (∀ rt0 : runtime, _board (svc rt0) = None →
       (∀ pin_nr value, change_digital pin_nr value rt0 = (None, rt0))
       ∧ (∀ data, (write data rt0).2 = rt0)
       ∧ (∀ data, bytearray_ok data = true → write data rt0 = (None, rt0))
       ∧ (∀ recipient command args,
            send_virtualwire_command recipient command args rt0 = (None, rt0))
       ∧ (∀ pin_number mode, set_pin_mode pin_number mode rt0 = (None, rt0))
       ∧ (∀ pin_nr value get_pin,
            (setup_digital pin_nr get_pin rt0).1 = None
            ∧ hw (setup_digital pin_nr get_pin rt0).2 = hw rt0
            ∧ _act_digital (svc (setup_digital pin_nr get_pin rt0).2) !! pin_nr
              = Some (mkPinTuple "o" None)
            ∧ change_digital pin_nr value (setup_digital pin_nr get_pin rt0).2
              = (None, (setup_digital pin_nr get_pin rt0).2))).
Proof.
  intros Hfail. rewrite (setup_mocked_run os_access open_board rt) by by left.
  simpl. split_and!; try done.
  - by rewrite <-app_assoc.
  - intros rt0 Hb. split_and!.
    + intros pin_nr value. unfold change_digital. by rewrite Hb.
    + intros data. unfold write. destruct (bytearray_ok data); simpl; [|done].
      by apply unless_no_board_mocked.
    + intros data Hok. unfold write. rewrite Hok. simpl.
      by rewrite unless_no_board_mocked.
    + intros recipient command args. unfold send_virtualwire_command.
      by rewrite Hb.
    + intros pin_number mode. unfold set_pin_mode. by rewrite Hb.
    + intros pin_nr value get_pin. unfold setup_digital, change_digital. rewrite Hb.
      simpl. rewrite Hb.
      split_and!; [done | done | by rewrite lookup_insert_eq | done].
Qed.

Lemma setup_degrades_to_mocked_witness :
  let rt' := (setup false (inr tt) fresh_runtime).2 in
  (setup false (inr tt) fresh_runtime).1 = None
  ∧ _board (svc rt') = None
  ∧ is_mocked (svc rt') = true
  ∧ hw rt' = hw fresh_runtime
  ∧ logs rt'
    = (logs fresh_runtime
       ++ [Debug "Initializing Arduino subsystem";
           Warning "Your arduino device %s is not available. Arduino will be mocked."])%list
  ∧ (∀ rt0 : runtime, _board (svc rt0) = None →
       (∀ pin_nr value, change_digital pin_nr value rt0 = (None, rt0))
       ∧ (∀ data, (write data rt0).2 = rt0)
       ∧ (∀ data, bytearray_ok data = true → write data rt0 = (None, rt0))
       ∧ (∀ recipient command args,
            send_virtualwire_command recipient command args rt0 = (None, rt0))
       ∧ (∀ pin_number mode, set_pin_mode pin_number mode rt0 = (None, rt0))
       ∧ (∀ pin_nr value get_pin,
            (setup_digital pin_nr get_pin rt0).1 = None
            ∧ hw (setup_digital pin_nr get_pin rt0).2 = hw rt0
            ∧ _act_digital (svc (setup_digital pin_nr get_pin rt0).2) !! pin_nr
              = Some (mkPinTuple "o" None)
            ∧ change_digital pin_nr value (setup_digital pin_nr get_pin rt0).2
              = (None, (setup_digital pin_nr get_pin rt0).2))).
Proof.
  refine (setup_degrades_to_mocked false (inr tt) fresh_runtime _). reflexivity.
Defined.

(** The board constructor failing with [ENOENT] is handled the same way. *)
Example setup_enoent_mocked :
  let r := setup true (inl ENOENT) fresh_runtime in
  r.1 = None ∧ _board (svc r.2) = None ∧ is_mocked (svc r.2) = true ∧ hw r.2 = [].
Proof. split_and!; reflexivity. Qed.

(** With the device present, [setup] configures the board. *)
Example setup_with_board :
  let r := setup true (inr tt) fresh_runtime in
  r.1 = None
  ∧ is_mocked (svc r.2) = false
  ∧ hw r.2 = [AddCmdHandler STRING_DATA; StartIteratorThread;
              SerialWrite [SYSTEM_RESET];
              SendSysex SAMPLING_INTERVAL [116; 3];
              SendSysex SYSEX_SET_INSTANT_DIGITAL_REPORTING [1];
              SendSysex SYSEX_SETUP_VIRTUALWIRE [0; 0; 0; 0; 2; 0; 0];
              AddCmdHandler SYSEX_VIRTUALWIRE_MESSAGE;
              SendSysex SYSEX_SETUP_LCD [0; 16; 2; 0];
              SendSysex SYSEX_KEEP_ALIVE [0]; StartKeepaliveTimer].
Proof. split_and!; reflexivity. Qed.

(** Any other [OSError] from opening the board leaves [setup]. *)
Example setup_other_oserror :
  (setup true (inl 13) fresh_runtime).1 = Some (OSError 13).
Proof. reflexivity. Qed.

(** C8: a digital broadcast whose payload does not have 2 items, or an
    analog broadcast whose payload does not have 3, is logged as an error
    and dropped: the handler returns normally, calls [set_status] on no
    sensor, and leaves the service and the hardware as they were. *)
Theorem malformed_broadcast_dropped (sender_address command : Z) (data : list Z)
    (rt : runtime) :
  bytearray_ok data = true →
  (command = VIRTUALWIRE_DIGITAL_BROADCAST ∧ length data ≠ 2%nat)
  ∨ (command = VIRTUALWIRE_ANALOG_BROADCAST ∧ length data ≠ 3%nat) →
  let r := _virtualwire_message_callback sender_address command data rt in
  r.1 = None
  ∧ status_calls r.2 = status_calls rt
  ∧ svc r.2 = svc rt
  ∧ hw r.2 = hw rt
  ∧ ∃ msg, logs r.2 = (logs rt ++ [Debug "pulse %s %s %s"; Error msg])%list.
Proof.
  intros Hok Hbad. unfold _virtualwire_message_callback. rewrite Hok. simpl.
  destruct Hbad as [[-> Hlen]|[-> Hlen]]; simpl.
  - destruct data as [|? [|? [|? ?]]]; simpl in *; try done;
      split_and!; try done; eexists; by rewrite <-app_assoc.
  - destruct data as [|? [|? [|? [|? ?]]]]; simpl in *; try done;
      split_and!; try done; eexists; by rewrite <-app_assoc.
Qed.

Lemma malformed_broadcast_dropped_witness :
  let rt := with_svc (set_sens_vw_digital {[ 7 := [mkVWSensor "door" 10] ]})
              fresh_runtime in
  let r := _virtualwire_message_callback 7 VIRTUALWIRE_DIGITAL_BROADCAST [1; 4; 0] rt in
  r.1 = None
  ∧ status_calls r.2 = status_calls rt
  ∧ svc r.2 = svc rt
  ∧ hw r.2 = hw rt
  ∧ ∃ msg, logs r.2 = (logs rt ++ [Debug "pulse %s %s %s"; Error msg])%list.
Proof.
  intros rt.
  refine (malformed_broadcast_dropped 7 VIRTUALWIRE_DIGITAL_BROADCAST [1; 4; 0] rt _ _).
  - reflexivity.
  - left. split; [reflexivity | discriminate].
Defined.

(** The well-formed message for the same sensor (pin 10 is bit 2 of port
    1) sets its status. *)
Example wellformed_digital_broadcast :
  let rt := with_svc (set_sens_vw_digital {[ 7 := [mkVWSensor "door" 10] ]})
              fresh_runtime in
  status_calls (_virtualwire_message_callback 7 VIRTUALWIRE_DIGITAL_BROADCAST
                  [1; 4] rt).2
  = [("door", SBool true)].
Proof. reflexivity. Qed.

End ArduinoFacts.

(** * Further facts about the snapshot code *)

(** ** What one save does to an arbitrary disk *)

(** X1: [save_state] only touches [self.filename] and its numbered
    backups; every other file on disk is left as it was. *)
Theorem save_state_leaves_other_files (now : Z) (self : System)
    (fs : gmap string file) (path : string) :
  (∀ j, path ≠ backup_fname (filename self) j) →
  files (run_save_state now self fs) !! path = fs !! path.
Proof.
  intros Hpath. destruct (decide (filename self = "")) as [Hname|Hname].
  - unfold run_save_state, save_state. by rewrite Hname.
  - rewrite save_state_files by done.
    rewrite lookup_insert_ne by (intros Heq; by apply (Hpath 0%nat)).
    by apply rotate_other.
Qed.

Lemma save_state_leaves_other_files_witness :
  let disk : gmap string file :=
    {[ "state" := mkFile 3 (Pickle 1 [] ∅); "automate.log" := mkFile 2 NotAPickle ]} in
  files (run_save_state 9 (mkSystem "state" 5 []) disk) !! "automate.log"
  = disk !! "automate.log".
Proof.
  intros disk.
  refine (save_state_leaves_other_files 9 (mkSystem "state" 5 []) disk
            "automate.log" _).
  intros j. unfold backup_fname, fmt_s_dot_d.
  destruct j; simpl; [discriminate|].
  intros Heq. apply (f_equal (λ s, String.get 0 s)) in Heq. discriminate.
Defined.

(** X2: one save on any disk, holes in the backup family included. The
    new snapshot is at [path]; for [0 < j < N] the file at [path.j] is the
    old [path.(j-1)] (absent if that was absent); [path.N] is the old
    [path.(N-1)] when there was one and keeps its old content otherwise;
    backups numbered above [N] are not touched. *)
Theorem save_state_on_any_disk (now : Z) (self : System) (fs : gmap string file)
    (j : nat) :
  filename self ≠ "" →
  let n := Z.to_nat (num_state_backups self) in
  let old i := fs !! backup_fname (filename self) i in
  files (run_save_state now self fs) !! backup_fname (filename self) j
  = if decide (j = 0%nat) then Some (snapshot_file (now, objects self))
    else if decide (j < n)%nat then old (j - 1)%nat
    else if decide (j = n) then
      match old (n - 1)%nat with Some f => Some f | None => old n end
    else old j.
Proof.
  intros Hname n old. rewrite save_state_files by done.
  destruct (decide (j = 0%nat)) as [->|Hj].
  - change (backup_fname (filename self) 0) with (filename self).
    by rewrite lookup_insert_eq.
  - rewrite lookup_insert_ne
      by (change (filename self) with (backup_fname (filename self) 0) at 1;
          intros ?%backup_fname_inj; lia).
    rewrite rotate_lookup. by rewrite decide_False by done.
Qed.

Lemma save_state_on_any_disk_witness :
  let disk : gmap string file :=
    {[ "state" := mkFile 5 NotAPickle; "state.2" := mkFile 1 NotAPickle ]} in
  let self := mkSystem "state" 2 [] in
  let n := Z.to_nat (num_state_backups self) in
  let old i := disk !! backup_fname (filename self) i in
  files (run_save_state 9 self disk) !! backup_fname (filename self) 2
  = if decide (2 = 0)%nat then Some (snapshot_file (9, objects self))
    else if decide (2 < n)%nat then old (2 - 1)%nat
    else if decide (2%nat = n) then
      match old (n - 1)%nat with Some f => Some f | None => old n end
    else old 2%nat.
Proof.
  intros disk self.
  refine (save_state_on_any_disk 9 self disk 2 _). discriminate.
Defined.

(** A hole at [path.1]: the old [path.2] survives the save. *)
Example save_state_keeps_last_backup_over_hole :
  let disk : gmap string file :=
    {[ "state" := mkFile 5 NotAPickle; "state.2" := mkFile 1 NotAPickle ]} in
  let disk' := files (run_save_state 9 (mkSystem "state" 2 []) disk) in
  mtime <$> disk' !! "state" = Some 9
  ∧ mtime <$> disk' !! "state.1" = Some 5
  ∧ mtime <$> disk' !! "state.2" = Some 1.
Proof. vm_compute. split_and!; done. Qed.

(** ** Saving and loading together *)

Lemma saved_file (now : Z) (self : System) (fs : gmap string file) :
  filename self ≠ "" →
  files (run_save_state now self fs) !! filename self
  = Some (snapshot_file (now, objects self)).
Proof. intros Hname. rewrite save_state_files by done. by rewrite lookup_insert_eq. Qed.

Lemma load_or_create_takes_load (env : environment) (fname : string)
    (no_input create_new : bool) (f : file) :
  fname ≠ "" →
  env_files env !! fname = Some f →
  time_program env < mtime f →
  effective_create_new env create_new = false →
  load_or_create env fname no_input create_new = load env fname.
Proof.
  intros Hname Hf Hnewer Hcn. unfold load_or_create, savefile_more_recent.
  rewrite (proj2 (str_truthy_true fname) Hname), (os_path_isfile_true _ _ _ Hf),
    Hf, Hcn, bool_decide_true by done.
  done.
Qed.

Lemma load_or_create_takes_create (env : environment) (fname : string)
    (no_input create_new : bool) (f : file) :
  fname ≠ "" →
  env_files env !! fname = Some f →
  mtime f ≤ time_program env ∨ effective_create_new env create_new = true →
  effective_no_input env no_input = true →
  load_or_create env fname no_input create_new = create env fname.
Proof.
  intros Hname Hf Hstale Hni. unfold load_or_create, savefile_more_recent.
  rewrite (proj2 (str_truthy_true fname) Hname), (os_path_isfile_true _ _ _ Hf),
    Hf, Hni.
  destruct Hstale as [Hstale| ->].
  - by rewrite bool_decide_false by lia.
  - by rewrite andb_false_r.
Qed.

(** X3: a snapshot written by [save_state] after the program file was
    last modified is loaded back by [load_or_create] (no [--create_new],
    no [create_new]) without a prompt, and the system it returns has the
    very object list that was saved. *)
Theorem save_then_load (now : Z) (self : System) (fs : gmap string file)
    (env : environment) (no_input : bool) :
  filename self ≠ "" →
  env_files env = files (run_save_state now self fs) →
  time_program env < now →
  args_create_new env = false →
  load_or_create env (filename self) no_input false
  = Ok (mkSystem (filename self) 5 (objects self)).
Proof.
  intros Hname Hfiles Hnewer Hflag.
  pose proof (saved_file now self fs Hname) as Hf. rewrite <-Hfiles in Hf.
  rewrite (load_or_create_takes_load env (filename self) no_input false _ Hname Hf).
  - by apply (load_current env _ _ _ (editable_config (objects self)) Hf).
  - done.
  - unfold effective_create_new. by rewrite Hflag.
Qed.

Lemma save_then_load_witness :
  let self := mkSystem "state" 2 [mkObject "lamp" (SBool true) (Some true);
                                  mkObject "door" (SBool false) None] in
  let env := mkEnv false false (files (run_save_state 9 self ∅)) 5 [] [] in
  load_or_create env (filename self) false false
  = Ok (mkSystem (filename self) 5 (objects self)).
Proof.
  intros self env.
  refine (save_then_load 9 self ∅ env false _ _ _ _).
  - discriminate.
  - reflexivity.
  - reflexivity.
  - reflexivity.
Defined.

(** X4: a forced rebuild ([--create_new]) after a save, the saved objects
    having distinct names. When no user-editable saved object is named
    like an attribute of the system object itself, the rebuild takes the
    objects from the static definitions and gives each of them the saved
    status of the user-editable object of the same name, if there was
    one; the other objects keep their static status. When a user-editable
    saved object is named like an attribute of the system object that
    takes no [status], the rebuild ends in [AttributeError]. *)
Theorem save_then_rebuild (now : Z) (self : System) (fs : gmap string file)
    (env : environment) (no_input create_new : bool) :
  filename self ≠ "" →
  NoDup (name <$> objects self) →
  env_files env = files (run_save_state now self fs) →
  args_create_new env = true →
  ((∀ s, s ∈ objects self → user_editable s = Some true →
         cls_own_attributes env !! name s = None) →
   ∃ objs,
     load_or_create env (filename self) no_input create_new
     = Ok (mkSystem (filename self) 5 objs)
     ∧ length objs = length (cls_static_objects env)
     ∧ ∀ i o, cls_static_objects env !! i = Some o →
         ∃ o', objs !! i = Some o'
               ∧ name o' = name o
               ∧ user_editable o' = user_editable o
               ∧ (∀ s, s ∈ objects self → name s = name o →
                       user_editable s = Some true → status o' = status s)
               ∧ ((∀ s, s ∈ objects self → name s = name o →
                        user_editable s ≠ Some true) → status o' = status o))
  ∧ (∀ s, s ∈ objects self → user_editable s = Some true →
          cls_own_attributes env !! name s = Some RejectsStatus →
          load_or_create env (filename self) no_input create_new
          = Raise AttributeError).
Proof.
  intros Hname Hnd Hfiles Hflag.
  pose proof (saved_file now self fs Hname) as Hf. rewrite <-Hfiles in Hf.
  assert (load_or_create env (filename self) no_input create_new
          = create env (filename self)) as ->.
  { apply (load_or_create_takes_create env (filename self) no_input create_new
             _ Hname Hf).
    - right. unfold effective_create_new. by rewrite Hflag.
    - unfold effective_no_input. by rewrite Hflag. }
  rewrite (create_current env _ _ (objects self) _ Hname Hf eq_refl).
  split.
  - intros Hown.
    exists (load_status (cls_own_attributes env) (editable_config (objects self))
              <$> cls_static_objects env).
    split_and!.
    + rewrite apply_load_config_ok; [done|].
      intros key v Hkey. apply editable_config_sound in Hkey as (s & Hin & He & <- & _).
      rewrite (Hown s Hin); [done|].
      unfold getattr_user_editable in He. by destruct (user_editable s) as [[]|].
    + by rewrite length_fmap.
    + intros i o Ho.
      destruct (load_status_lookup (cls_own_attributes env)
                  (editable_config (objects self)) _ _ _ Ho)
        as (o' & Ho' & Hn & He & Hs).
      exists o'. split_and!; try done.
      * intros s Hin Hsn Hse. rewrite Hs, <-Hsn, (Hown s Hin Hse).
        rewrite (editable_config_complete (objects self) s); try done.
        unfold getattr_user_editable. by rewrite Hse.
      * intros Hnone. rewrite Hs.
        destruct (cls_own_attributes env !! name o); [done|].
        destruct (editable_config (objects self) !! name o) as [v|] eqn:Hl; [|done].
        apply editable_config_sound in Hl as (s & Hin & Hse & Hsn & _).
        exfalso. apply (Hnone s Hin Hsn).
        unfold getattr_user_editable in Hse. by destruct (user_editable s) as [[]|].
  - intros s Hin Hse Hrej.
    rewrite (apply_load_config_raises _ _ _ (name s) (status s)); [done| |done].
    apply editable_config_complete; try done.
    unfold getattr_user_editable. by rewrite Hse.
Qed.

Lemma save_then_rebuild_witness :
  let self := mkSystem "state" 2 [mkObject "lamp" (SBool true) (Some true);
                                  mkObject "door" (SBool true) None] in
  let env := mkEnvironment false true (files (run_save_state 9 self ∅)) 20 []
               [mkObject "lamp" (SBool false) (Some true);
                mkObject "door" (SBool false) None]
               {[ "filename" := RejectsStatus; "door" := RejectsStatus ]} in
  ((∀ s, s ∈ objects self → user_editable s = Some true →
         cls_own_attributes env !! name s = None) →
   ∃ objs,
     load_or_create env (filename self) false false
     = Ok (mkSystem (filename self) 5 objs)
     ∧ length objs = length (cls_static_objects env)
     ∧ ∀ i o, cls_static_objects env !! i = Some o →
         ∃ o', objs !! i = Some o'
               ∧ name o' = name o
               ∧ user_editable o' = user_editable o
               ∧ (∀ s, s ∈ objects self → name s = name o →
                       user_editable s = Some true → status o' = status s)
               ∧ ((∀ s, s ∈ objects self → name s = name o →
                        user_editable s ≠ Some true) → status o' = status o))
  ∧ (∀ s, s ∈ objects self → user_editable s = Some true →
          cls_own_attributes env !! name s = Some RejectsStatus →
          load_or_create env (filename self) false false
          = Raise AttributeError).
Proof.
  intros self env.
  refine (save_then_rebuild 9 self ∅ env false false _ _ _ _).
  - discriminate.
  - apply (bool_decide_unpack _). by vm_compute.
  - reflexivity.
  - reflexivity.
Defined.

(** A saved user-editable object named [filename], like the trait of the
    system object: the rebuild fails. *)
Example rebuild_after_save_of_filename_object :
  let self := mkSystem "state" 2 [mkObject "filename" (SStr "x") (Some true)] in
  load_or_create
    (mkEnvironment false true (files (run_save_state 9 self ∅)) 20 []
       [mkObject "filename" (SStr "y") (Some true)]
       {[ "filename" := RejectsStatus ]})
    "state" false false
  = Raise AttributeError.
Proof. by vm_compute. Qed.

(** ** The other paths of [load_or_create] *)

(** X5: for a string [filename] at which there is no file (the empty
    string, which names none, included) [load_or_create] builds the
    system from the static definitions of the class, whatever the flags
    are, and never prompts. *)
Theorem load_or_create_without_file (env : environment) (fname : string)
    (no_input create_new : bool) :
  env_files env !! fname = None →
  load_or_create env fname no_input create_new
  = Ok (mkSystem fname 5 (cls_static_objects env)).
Proof.
  intros Hf. unfold load_or_create, os_path_isfile.
  rewrite bool_decide_false by (rewrite Hf; by intros [? ?]).
  rewrite andb_false_r. unfold create, load_pickle. rewrite Hf.
  by destruct (str_truthy fname).
Qed.

Lemma load_or_create_without_file_witness :
  let env := mkEnv false false {[ "other" := mkFile 1 NotAPickle ]} 5 ["n"]
               [mkObject "lamp" (SBool false) (Some true)] in
  load_or_create env "state" false true
  = Ok (mkSystem "state" 5 (cls_static_objects env)).
Proof.
  intros env. refine (load_or_create_without_file env "state" false true _).
  reflexivity.
Defined.

(** X6: an existing file that does not unpickle to a snapshot stops
    [load_or_create] on every path: [create()] forgives a missing file
    only, so no system is built, not even from the static definitions. *)
Theorem load_or_create_unreadable_snapshot (env : environment) (fname : string)
    (no_input create_new : bool) (f : file) :
  fname ≠ "" →
  env_files env !! fname = Some f →
  content f = NotAPickle →
  load env fname = Raise UnpicklingError
  ∧ create env fname = Raise UnpicklingError
  ∧ ∀ sys, load_or_create env fname no_input create_new ≠ Ok sys.
Proof.
  intros Hname Hf Hc.
  assert (load env fname = Raise UnpicklingError) as Hload.
  { unfold load, load_pickle. by rewrite Hf, Hc. }
  assert (create env fname = Raise UnpicklingError) as Hcreate.
  { unfold create, load_pickle.
    by rewrite (proj2 (str_truthy_true fname) Hname), Hf, Hc. }
  split_and!; try done.
  intros sys. unfold load_or_create.
  rewrite (proj2 (str_truthy_true fname) Hname), (os_path_isfile_true _ _ _ Hf).
  simpl.
  destruct (savefile_more_recent env fname
            && negb (effective_create_new env create_new)); [by rewrite Hload|].
  destruct (effective_no_input env no_input); [by rewrite Hcreate|].
  destruct (prompt_loop_cases (stdin env) env fname) as [->|[->|[-> _]]];
    by rewrite ?Hload, ?Hcreate.
Qed.

Lemma load_or_create_unreadable_snapshot_witness :
  let env := mkEnv false true {[ "state" := mkFile 1 NotAPickle ]} 5 []
               [mkObject "lamp" (SBool false) (Some true)] in
  load env "state" = Raise UnpicklingError
  ∧ create env "state" = Raise UnpicklingError
  ∧ ∀ sys, load_or_create env "state" false false ≠ Ok sys.
Proof.
  intros env.
  refine (load_or_create_unreadable_snapshot env "state" false false
            (mkFile 1 NotAPickle) _ _ _).
  - discriminate.
  - reflexivity.
  - reflexivity.
Defined.

Lemma prompt_loop_skips (junk rest : list string) (a : string)
    (env : environment) (fname : string) :
  Forall (λ a, a ≠ "y" ∧ a ≠ "n") junk →
  prompt_loop (junk ++ a :: rest) env fname = prompt_loop (a :: rest) env fname.
Proof.
  induction 1 as [|b junk [Hy Hn] _ IH]; [done|].
  simpl. apply String.eqb_neq in Hy, Hn. by rewrite Hy, Hn.
Qed.

(** X7: when the file exists, is not to be loaded straight away (it is
    stale, or [create_new] is in force) and [no_input] is not in force,
    the prompt decides: answers other than [y] and [n] are asked again,
    the first [y] rebuilds the system, the first [n] loads the snapshot,
    even if [create_new] was passed as a keyword argument. *)
Theorem load_or_create_prompt (env : environment) (fname : string)
    (no_input create_new : bool) (f : file) (junk rest : list string) (a : string) :
  fname ≠ "" →
  env_files env !! fname = Some f →
  mtime f ≤ time_program env ∨ effective_create_new env create_new = true →
  effective_no_input env no_input = false →
  stdin env = (junk ++ a :: rest)%list →
  Forall (λ a, a ≠ "y" ∧ a ≠ "n") junk →
  (a = "y" → load_or_create env fname no_input create_new = create env fname)
  ∧ (a = "n" → load_or_create env fname no_input create_new = load env fname).
Proof.
  intros Hname Hf Hstale Hni Hin Hjunk.
  assert (load_or_create env fname no_input create_new
          = prompt_loop (a :: rest) env fname) as ->.
  { unfold load_or_create, savefile_more_recent.
    rewrite (proj2 (str_truthy_true fname) Hname), (os_path_isfile_true _ _ _ Hf),
      Hf, Hni, Hin. simpl.
    rewrite prompt_loop_skips by done.
    destruct Hstale as [Hstale| ->].
    - by rewrite bool_decide_false by lia.
    - by rewrite andb_false_r. }
  split; intros ->; done.
Qed.

Lemma load_or_create_prompt_witness :
  let f := mkFile 9 (Pickle 1 [mkObject "lamp" (SBool true) (Some true)]
                       {[ "lamp" := SBool true ]}) in
  let env := mkEnv false false {[ "state" := f ]} 5 ["yes"; ""; "n"; "y"]
               [mkObject "lamp" (SBool false) (Some true)] in
  ("n" = "y" → load_or_create env "state" false true = create env "state")
  ∧ ("n" = "n" → load_or_create env "state" false true = load env "state").
Proof.
  intros f env.
  refine (load_or_create_prompt env "state" false true f ["yes"; ""] ["y"] "n"
            _ _ _ _ _ _).
  - discriminate.
  - reflexivity.
  - by right.
  - reflexivity.
  - reflexivity.
  - repeat constructor; discriminate.
Defined.

(** * Further facts about names, services and tags *)

Lemma get_unique_name_free (fuel : nat) (ns : gset string)
    (class_name name name_from_system : string) :
  (size ns < fuel)%nat →
  ∃ newname,
    get_unique_name fuel ns class_name name name_from_system = Some newname
    ∧ newname ∉ ns.
Proof.
  intros Hfuel. unfold get_unique_name.
  set (base := base_name class_name name name_from_system).
  case_bool_decide as Hbase; [by exists base|].
  destruct (free_candidate ns base) as (c & Hc & Hfree).
  destruct (probe_names_spec ns base fuel 0) as (c0 & _ & Hrun & Hfree0 & _).
  { exists c. split; [lia | done]. }
  by exists (fmt_s_02d base c0).
Qed.

(** X8: naming any sequence of objects, each one registered before the
    next is named, always succeeds and never gives a name twice or a name
    that was registered before. *)
Theorem name_all_distinct (reqs : list (string * string * string)) (ns : gset string) :
  ∃ names,
    name_all ns reqs = Some names
    ∧ length names = length reqs
    ∧ NoDup names
    ∧ ∀ n, n ∈ names → n ∉ ns.
Proof.
  revert ns. induction reqs as [|[[c n] nfs] reqs IH]; intros ns.
  - exists []. split_and!; [done | done | constructor | by intros ? ?%elem_of_nil].
  - simpl.
    destruct (get_unique_name_free (S (size ns)) ns c n nfs) as (x & -> & Hx); [lia|].
    destruct (IH ({[x]} ∪ ns)) as (names & -> & Hlen & Hnd & Hfresh).
    exists (x :: names). simpl. split_and!; [done | by rewrite Hlen | |].
    + constructor; [|done]. intros Hin. apply Hfresh in Hin. set_solver.
    + intros y [->|Hin]%elem_of_cons; [done|].
      apply Hfresh in Hin. set_solver.
Qed.

Example three_unnamed_sensors :
  name_all {[ "lamp" ]}
    [("UserBoolSensor", "", ""); ("UserBoolSensor", "", "");
     ("UserBoolSensor", "lamp", ""); ("UserBoolSensor", "", "")]
  = Some ["Nameless_UserBoolSensor"; "Nameless_UserBoolSensor_00"; "lamp_00";
          "Nameless_UserBoolSensor_01"].
Proof. by vm_compute. Qed.

(** ** Services *)

(** X9: [register_service] keeps the list of services free of duplicates:
    the service is in the list afterwards, the services registered before
    keep their places, and registering a service a second time changes
    nothing. *)
Theorem register_service_once (service : Service) (services : list Service) :
  NoDup (service_id <$> services) →
  NoDup (service_id <$> register_service service services)
  ∧ service_id service ∈ service_id <$> register_service service services
  ∧ services `prefix_of` register_service service services
  ∧ register_service service (register_service service services)
    = register_service service services.
Proof.
  intros Hnd.
  assert (service_id service ∈ service_id <$> register_service service services)
    as Hafter.
  { unfold register_service, service_in. case_bool_decide as Hin; simpl; [done|].
    rewrite fmap_app. apply elem_of_app. right. simpl.
    by apply list_elem_of_singleton. }
  split_and!; [| done | |].
  - unfold register_service, service_in. case_bool_decide as Hin; simpl; [done|].
    rewrite fmap_app. apply NoDup_app. split_and!; [done | | apply NoDup_singleton].
    intros x Hx Hx'. apply list_elem_of_fmap in Hx' as (y & -> & Hy).
    by apply list_elem_of_singleton in Hy as ->.
  - unfold register_service. destruct (negb (service_in service services));
      [by apply prefix_app_r | done].
  - unfold register_service at 1, service_in. by rewrite bool_decide_true.
Qed.

Lemma register_service_once_witness :
  let web := mkServiceObject 1 "WebService" false in
  let log := mkServiceObject 2 "LogStoreService" true in
  NoDup (service_id <$> register_service web [log; web])
  ∧ service_id web ∈ service_id <$> register_service web [log; web]
  ∧ [log; web] `prefix_of` register_service web [log; web]
  ∧ register_service web (register_service web [log; web])
    = register_service web [log; web].
Proof.
  intros web log. refine (register_service_once web [log; web] _).
  apply (bool_decide_unpack _). by vm_compute.
Defined.

Lemma services_by_name_snoc (services : list Service) (i : Service) :
  services_by_name (services ++ [i])
  = <[service_class i :=
        (default [] (services_by_name services !! service_class i) ++ [i])%list]>
      (services_by_name services).
Proof. unfold services_by_name. by rewrite foldl_app. Qed.

(** X10: [services_by_name] groups the services by class name: under a
    class name it has the services of that class in the order they were
    registered, and it has no entry for a class without services. *)
Theorem services_by_name_lookup (services : list Service) (c : string) :
  services_by_name services !! c
  = match filter (λ s, service_class s = c) services with
    | [] => None
    | srvs => Some srvs
    end.
Proof.
  induction services as [|i services IH] using rev_ind; [done|].
  rewrite services_by_name_snoc, filter_app.
  destruct (decide (service_class i = c)) as [<-|Hne].
  - rewrite lookup_insert_eq, IH.
    rewrite (filter_cons_True _ i []) by done. simpl.
    by destruct (filter _ services).
  - rewrite lookup_insert_ne, IH by done.
    rewrite (filter_cons_False _ i []) by done. simpl. by rewrite app_nil_r.
Qed.

(** X11: [request_service(type, id)] answers from the services of class
    [type] in registration order: without any it returns nothing, whatever
    [id] is; a position [i] in range gives the [i]-th of them, also when
    addressed from the end as [i - len]; an [id] outside
    [-len .. len - 1] is an [IndexError]. [setup_system] is called on the
    service exactly when its [system] is not set yet. *)
Theorem request_service_selects (services : list Service) (type : string) :
  let srvs := filter (λ s, service_class s = type) services in
  (srvs = [] → ∀ id, request_service services type id = NoService)
  ∧ (∀ (i : nat) ser, srvs !! i = Some ser →
       request_service services type (Z.of_nat i)
       = GotService ser (negb (service_has_system ser))
       ∧ request_service services type (Z.of_nat i - Z.of_nat (length srvs))
         = GotService ser (negb (service_has_system ser)))
  ∧ (srvs ≠ [] → ∀ id,
       Z.of_nat (length srvs) ≤ id ∨ id < - Z.of_nat (length srvs) →
       request_service services type id = IndexError).
Proof.
  intros srvs. unfold request_service. rewrite services_by_name_lookup.
  fold srvs. split_and!.
  - by intros ->.
  - intros i ser Hi.
    assert (i < length srvs)%nat as Hlt by by eapply lookup_lt_Some.
    destruct srvs as [|s0 srvs'] eqn:Hs; [done|]. rewrite <-Hs in *.
    unfold py_getitem. split.
    + rewrite (proj2 (Z.leb_le 0 (Z.of_nat i))) by lia.
      by rewrite Nat2Z.id, Hi.
    + rewrite (proj2 (Z.leb_gt _ _)) by lia.
      rewrite (proj2 (Z.leb_le _ _)) by lia.
      replace (Z.to_nat (Z.of_nat (length srvs)
                         + (Z.of_nat i - Z.of_nat (length srvs)))) with i by lia.
      by rewrite Hi.
  - intros Hne id Hid.
    destruct srvs as [|s0 srvs'] eqn:Hs; [done|]. rewrite <-Hs in *.
    unfold py_getitem. destruct Hid as [Hid|Hid].
    + rewrite (proj2 (Z.leb_le 0 id)) by lia.
      rewrite (proj2 (lookup_ge_None srvs (Z.to_nat id))) by lia. done.
    + rewrite (proj2 (Z.leb_gt 0 id)) by lia.
      by rewrite (proj2 (Z.leb_gt _ _)) by lia.
Qed.

Example request_second_arduino :
  let a1 := mkServiceObject 1 "ArduinoService" true in
  let web := mkServiceObject 2 "WebService" true in
  let a2 := mkServiceObject 3 "ArduinoService" false in
  request_service [a1; web; a2] "ArduinoService" 1 = GotService a2 true
  ∧ request_service [a1; web; a2] "ArduinoService" (-2) = GotService a1 false
  ∧ request_service [a1; web; a2] "ArduinoService" 2 = IndexError
  ∧ request_service [a1; web; a2] "RpioService" 7 = NoService.
Proof. by vm_compute. Qed.

(** ** Tags *)

Lemma inner_tags_elem (l : list string) (acc : gset string) (t : string) :
  t ∈ foldl (λ newset j, if str_truthy j then {[j]} ∪ newset else newset) acc l
  ↔ t ∈ acc ∨ (t ≠ "" ∧ t ∈ l).
Proof.
  revert acc. induction l as [|j l IH]; intros acc; simpl.
  - split; [by left | intros [?|[_ ?%elem_of_nil]]; done].
  - rewrite IH, elem_of_cons. destruct (str_truthy j) eqn:Hj.
    + apply str_truthy_true in Hj. rewrite elem_of_union, elem_of_singleton.
      split; [intros [[->|?]|[? ?]] | intros [?|[? [->|?]]]]; eauto.
    + apply str_truthy_false in Hj. subst j.
      split; [intros [?|[? ?]] | intros [?|[? [->|?]]]]; eauto. done.
Qed.

(** X12: [all_tags] is exactly the set of non-empty strings that are a tag
    of some object of the system. *)
Theorem all_tags_elem (tags : SystemObject → list string)
    (objs : list SystemObject) (t : string) :
  t ∈ _get_all_tags tags objs ↔ t ≠ "" ∧ ∃ o, o ∈ objs ∧ t ∈ tags o.
Proof.
  unfold _get_all_tags.
  induction objs as [|o objs IH] using rev_ind.
  - simpl. split; [set_solver | intros (_ & o & []%elem_of_nil & _)].
  - rewrite foldl_app. simpl. rewrite inner_tags_elem, IH. split.
    + intros [(Ht & o' & Hin & Ho')|[Ht Ho]].
      * split; [done|]. exists o'. split; [apply elem_of_app; by left | done].
      * split; [done|]. exists o.
        split; [apply elem_of_app; right; by apply list_elem_of_singleton | done].
    + intros (Ht & o' & [Hin|Hin%list_elem_of_singleton]%elem_of_app & Ho').
      * left. split; [done|]. by exists o'.
      * subst o'. by right.
Qed.

(** * Further facts about [cmd_exec] *)

Module CmdExecBindings.
Import CmdExec.

Lemma eval_part_failure_state (I : interpreter) (cmd : string)
    (ns : gmap string py_object) (st st1 : state) (e : py_exn) :
  eval_part I cmd ns st = (Some e, st1) → st1 = st.
Proof.
  unfold eval_part. destruct (py_eval I cmd ns) as [e0|r]; [by intros [= _ <-]|].
  destruct (if is_SystemObject r && negb (has_system r)
            then setup_system_outcome r else None); [by intros [= _ <-]|].
  destruct (is_callable r); [|done].
  destruct (call_outcome r); [by intros [= _ <-] | done].
Qed.

Lemma store_changes_lookup (nscopy ns' : gmap string py_object) (st : state)
    (k : string) :
  namespace (store_changes nscopy ns' st) !! k
  = match ns' !! k with
    | Some v =>
        if decide (oid <$> nscopy !! k = Some (oid v))
        then namespace st !! k else Some v
    | None => namespace st !! k
    end.
Proof.
  unfold store_changes. simpl. rewrite lookup_union, map_lookup_filter.
  destruct (ns' !! k) as [v|] eqn:Hv; simpl.
  - unfold changed_entry. simpl. case_decide as Hsame.
    + rewrite option_guard_False by (intros Hne; by apply Hne).
      simpl. by destruct (namespace st !! k).
    + rewrite option_guard_True by done. simpl.
      by destruct (namespace st !! k).
  - by destruct (namespace st !! k).
Qed.

(** X13: a command that is no expression is executed, and unless it ends
    with [ExitException] (or an exception outside [Exception]) its
    bindings are stored, also when it failed on the way: a name is
    written to [self.namespace] exactly when the command left it bound to
    an object other than the one it was bound to before; names that the
    command deleted or did not rebind keep their entry. When the command
    ends with [ExitException], nothing is stored. *)
Theorem cmd_exec_stores_bindings (I : interpreter)
    (automate_dict : gmap string py_object) (cmd : string) (st : state)
    (r : option py_exn) (ns' : gmap string py_object) :
  cmd ≠ "" →
  let ns := cmd_namespace automate_dict st in
  (eval_part I cmd ns st).1 = Some SyntaxError →
  py_exec I cmd ns = (r, ns') →
  let st' := (cmd_exec I automate_dict cmd st).2 in
  ((r = None ∨ r = Some SyntaxError ∨ ∃ m, r = Some (OtherException m)) →
     ∀ k, namespace st' !! k
          = match ns' !! k with
            | Some v =>
                if decide (oid <$> ns !! k = Some (oid v))
                then namespace st !! k else Some v
            | None => namespace st !! k
            end)
  ∧ (r = Some ExitException → st' = st).
Proof.
  intros Hcmd ns Heval Hexec st'. subst st'.
  apply str_truthy_true in Hcmd. unfold cmd_exec. rewrite Hcmd. simpl. fold ns.
  destruct (eval_part I cmd ns st) as [e st1] eqn:Hev. simpl in Heval. subst e.
  apply eval_part_failure_state in Hev as ->.
  unfold exec_part. rewrite Hexec. split.
  - intros [->|[->|[m ->]]] k; cbn [snd]; unfold info; cbn [namespace];
      by rewrite store_changes_lookup.
  - by intros ->.
Qed.

Lemma cmd_exec_stores_bindings_witness :
  let lamp := mkPyObject 1 true true None false None in
  let five := mkPyObject 2 false false None false None in
  let I := {| py_eval := λ _ _, inl SyntaxError;
              py_exec := λ _ ns, (Some (OtherException "ZeroDivisionError"),
                                  <["x" := five]> ns) |} in
  let st := mkState {[ "lamp" := lamp ]} [] in
  let ns := cmd_namespace ∅ st in
  let st' := (cmd_exec I ∅ "x = 5; 1/0" st).2 in
  ((Some (OtherException "ZeroDivisionError") = None
    ∨ Some (OtherException "ZeroDivisionError") = Some SyntaxError
    ∨ ∃ m, Some (OtherException "ZeroDivisionError") = Some (OtherException m)) →
     ∀ k, namespace st' !! k
          = match (<["x" := five]> ns) !! k with
            | Some v =>
                if decide (oid <$> ns !! k = Some (oid v))
                then namespace st !! k else Some v
            | None => namespace st !! k
            end)
  ∧ (Some (OtherException "ZeroDivisionError") = Some ExitException → st' = st).
Proof.
  intros lamp five I st ns.
  refine (cmd_exec_stores_bindings I ∅ "x = 5; 1/0" st
            (Some (OtherException "ZeroDivisionError")) (<["x" := five]> ns) _ _ _).
  - discriminate.
  - reflexivity.
  - reflexivity.
Defined.

(** The failing command above: [x] is stored, [False] is returned. *)
Example failed_exec_keeps_binding :
  let lamp := mkPyObject 1 true true None false None in
  let five := mkPyObject 2 false false None false None in
  let I := {| py_eval := λ _ _, inl SyntaxError;
              py_exec := λ _ ns, (Some (OtherException "ZeroDivisionError"),
                                  <["x" := five]> ns) |} in
  let r := cmd_exec I ∅ "x = 5; 1/0" (mkState {[ "lamp" := lamp ]} []) in
  r.1 = Return (Some false)
  ∧ namespace r.2 !! "x" = Some five
  ∧ namespace r.2 !! "lamp" = Some lamp.
Proof. by vm_compute. Qed.

End CmdExecBindings.

(** * Further facts about [ArduinoService] *)

Module ArduinoWire.
Import Arduino.

(** ** Broadcast messages *)

(** [bool(value & 1 << k)] is bit [k] of [value]. *)
Lemma and_shift_bit (value k : Z) :
  0 ≤ k → negb (Z.land value (Z.shiftl 1 k) =? 0) = Z.testbit value k.
Proof.
  intros Hk. rewrite Z.shiftl_1_l.
  destruct (Z.testbit value k) eqn:Hbit.
  - apply negb_true_iff, Z.eqb_neq. intros Hzero.
    assert (Z.testbit (Z.land value (2 ^ k)) k = true) as Hland.
    { by rewrite Z.land_spec, Hbit, Z.pow2_bits_true. }
    rewrite Hzero, Z.bits_0 in Hland. done.
  - apply negb_false_iff, Z.eqb_eq. apply Z.bits_inj'. intros n Hn.
    rewrite Z.land_spec, Z.bits_0, Z.pow2_bits_eqb by done.
    destruct (Z.eqb_spec k n) as [->|]; [by rewrite Hbit | by rewrite andb_false_r].
Qed.

Lemma digital_loop (port_nr value : Z) (sensors : list VWSensor) (rt : runtime) :
  foldl (λ rt s,
           let port := sensor_pin s `div` 8 in
           let pin_in_port := sensor_pin s `mod` 8 in
           if port_nr =? port then
             call_set_status s
               (SBool (negb (Z.land value (Z.shiftl 1 pin_in_port) =? 0))) rt
           else rt)
        rt sensors
  = {| svc := svc rt; hw := hw rt; logs := logs rt;
       status_calls :=
         (status_calls rt
          ++ ((λ s, (sensor_name s, SBool (Z.testbit value (sensor_pin s `mod` 8))))
              <$> filter (λ s, sensor_pin s `div` 8 = port_nr) sensors))%list |}.
Proof.
  revert rt. induction sensors as [|s sensors IH]; intros rt; simpl.
  - rewrite app_nil_r. by destruct rt.
  - rewrite IH. destruct (Z.eqb_spec port_nr (sensor_pin s `div` 8)) as [->|Hne].
    + rewrite filter_cons_True by done. simpl.
      rewrite and_shift_bit by (apply Z.mod_pos_bound; lia).
      by rewrite <-app_assoc.
    + by rewrite filter_cons_False by done.
Qed.

Lemma defaultdict_get_default (m : gmap Z (list VWSensor)) (k k' : Z) :
  (defaultdict_get m k).1 = default [] (m !! k)
  ∧ default [] ((defaultdict_get m k).2 !! k') = default [] (m !! k').
Proof.
  unfold defaultdict_get. destruct (m !! k) as [l|] eqn:Hk; simpl; [done|].
  split; [done|]. destruct (decide (k = k')) as [<-|Hne].
  - by rewrite lookup_insert_eq, Hk.
  - by rewrite lookup_insert_ne.
Qed.

(** X14: a well-formed digital broadcast [(port, value)] from a device
    calls [set_status] once on every sensor subscribed to that device
    whose pin lies in the port ([pin // 8 = port]), in the order of
    subscription, with bit [pin % 8] of [value] as the status; no other
    sensor is called, nothing is sent to the board, and the subscriptions
    are as before. *)
Theorem digital_broadcast_decodes (sender_address port_nr value : Z) (rt : runtime) :
  bytearray_ok [port_nr; value] = true →
  let r := _virtualwire_message_callback sender_address
             VIRTUALWIRE_DIGITAL_BROADCAST [port_nr; value] rt in
  r.1 = None
  ∧ status_calls r.2
    = (status_calls rt
       ++ ((λ s, (sensor_name s, SBool (Z.testbit value (sensor_pin s `mod` 8))))
           <$> filter (λ s, sensor_pin s `div` 8 = port_nr)
                 (digital_subscribers rt sender_address)))%list
  ∧ hw r.2 = hw rt
  ∧ ∀ d, digital_subscribers r.2 d = digital_subscribers rt d.
Proof.
  intros Hok. unfold _virtualwire_message_callback. rewrite Hok.
  cbn [negb]. change (VIRTUALWIRE_DIGITAL_BROADCAST =? VIRTUALWIRE_DIGITAL_BROADCAST)
    with true. cbv iota.
  destruct (defaultdict_get
              (_sens_virtualwire_digital
                 (svc (logger (Debug "pulse %s %s %s") rt))) sender_address)
    as [sensors m] eqn:Hget.
  pose proof (defaultdict_get_default
                (_sens_virtualwire_digital (svc rt)) sender_address) as Hdef.
  change (_sens_virtualwire_digital (svc (logger (Debug "pulse %s %s %s") rt)))
    with (_sens_virtualwire_digital (svc rt)) in Hget.
  rewrite Hget in Hdef. simpl in Hdef.
  rewrite digital_loop. simpl. split_and!; try done.
  - unfold digital_subscribers. by rewrite (proj1 (Hdef sender_address)).
  - intros d. unfold digital_subscribers. simpl. by rewrite (proj2 (Hdef d)).
Qed.

Lemma digital_broadcast_decodes_witness :
  let rt := with_svc (set_sens_vw_digital
                        {[ 1 := [mkVWSensor "digi1" 2; mkVWSensor "far" 9;
                                 mkVWSensor "digi2" 3] ]})
              fresh_runtime in
  let r := _virtualwire_message_callback 1 VIRTUALWIRE_DIGITAL_BROADCAST [0; 4] rt in
  r.1 = None
  ∧ status_calls r.2
    = (status_calls rt
       ++ ((λ s, (sensor_name s, SBool (Z.testbit 4 (sensor_pin s `mod` 8))))
           <$> filter (λ s, sensor_pin s `div` 8 = 0)
                 (digital_subscribers rt 1)))%list
  ∧ hw r.2 = hw rt
  ∧ ∀ d, digital_subscribers r.2 d = digital_subscribers rt d.
Proof.
  intros rt.
  refine (digital_broadcast_decodes 1 0 4 rt _). reflexivity.
Defined.

(** The message above sets [digi1] (pin 2) and clears [digi2] (pin 3). *)
Example digital_broadcast_two_sensors :
  let rt := with_svc (set_sens_vw_digital
                        {[ 1 := [mkVWSensor "digi1" 2; mkVWSensor "far" 9;
                                 mkVWSensor "digi2" 3] ]})
              fresh_runtime in
  status_calls (_virtualwire_message_callback 1 VIRTUALWIRE_DIGITAL_BROADCAST
                  [0; 4] rt).2
  = [("digi1", SBool true); ("digi2", SBool false)].
Proof. reflexivity. Qed.

(** ** Subscriptions *)

Lemma list_remove_first_None (x : VWSensor) (l : list VWSensor) :
  list_remove_first x l = None ↔ x ∉ l.
Proof.
  induction l as [|y l IH]; simpl.
  - split; [intros _ []%elem_of_nil | done].
  - rewrite not_elem_of_cons. case_decide as Hxy.
    + split; [done | by intros [? _]].
    + destruct (list_remove_first x l); simpl.
      * split; [done|]. intros [_ Hl]. by apply IH in Hl.
      * split; [|done]. intros _. split; [done | by apply IH].
Qed.

Lemma list_remove_first_Some (x : VWSensor) (l l' : list VWSensor) :
  list_remove_first x l = Some l' → l ≡ₚ x :: l'.
Proof.
  revert l'. induction l as [|y l IH]; intros l'; simpl; [done|].
  case_decide as Hxy; [by intros [= <-]; subst|].
  destruct (list_remove_first x l) as [l0|]; simpl; [|done].
  intros [= <-]. rewrite (IH l0 eq_refl). apply Permutation_swap.
Qed.

Lemma list_remove_first_snoc (x : VWSensor) (l : list VWSensor) :
  x ∉ l → list_remove_first x (l ++ [x]) = Some l.
Proof.
  induction l as [|y l IH]; simpl; intros Hx.
  - by rewrite decide_True.
  - apply not_elem_of_cons in Hx as [Hxy Hx].
    rewrite decide_False by done. by rewrite IH.
Qed.

Lemma subscribe_digital_subscribers (sensor : VWSensor) (d d' : Z) (rt : runtime) :
  digital_subscribers (subscribe_virtualwire_digital_broadcast sensor d rt) d'
  = if decide (d' = d) then (digital_subscribers rt d ++ [sensor])%list
    else digital_subscribers rt d'.
Proof.
  unfold subscribe_virtualwire_digital_broadcast, digital_subscribers, defaultdict_get.
  destruct (_sens_virtualwire_digital (svc rt) !! d) as [l|] eqn:Hd; simpl;
    case_decide as Hdd; subst; rewrite ?lookup_insert_eq, ?Hd; try done;
    by rewrite !lookup_insert_ne by done.
Qed.

Lemma unsubscribe_digital_subscribers (sensor : VWSensor) (d d' : Z) (rt : runtime) :
  let r := unsubscribe_virtualwire_digital_broadcast sensor d rt in
  match list_remove_first sensor (digital_subscribers rt d) with
  | None =>
      r.1 = Some ValueError
      ∧ digital_subscribers r.2 d' = digital_subscribers rt d'
  | Some l' =>
      r.1 = None
      ∧ digital_subscribers r.2 d'
        = if decide (d' = d) then l' else digital_subscribers rt d'
  end.
Proof.
  unfold unsubscribe_virtualwire_digital_broadcast, digital_subscribers, defaultdict_get.
  destruct (_sens_virtualwire_digital (svc rt) !! d) as [l|] eqn:Hd; simpl.
  - destruct (list_remove_first sensor l) as [l'|]; simpl; (split; [done|]).
    + case_decide as Hdd; subst; [by rewrite lookup_insert_eq|].
      by rewrite lookup_insert_ne.
    + done.
  - split; [done|]. destruct (decide (d = d')) as [<-|Hne].
    + by rewrite lookup_insert_eq, Hd.
    + by rewrite lookup_insert_ne.
Qed.

(** X15: the bookkeeping of broadcast subscriptions. Subscribing appends
    the sensor to the list of its source device and leaves the other
    devices alone; unsubscribing a sensor that is not subscribed to the
    device raises [ValueError] and changes no subscription; unsubscribing
    one that is removes a single occurrence; and subscribing a sensor and
    unsubscribing it again gives back the subscriptions there were. *)
Theorem digital_subscriptions (sensor : VWSensor) (d : Z) (rt : runtime) :
  let sub := subscribe_virtualwire_digital_broadcast sensor d rt in
  let unsub := unsubscribe_virtualwire_digital_broadcast sensor d rt in
  let both := unsubscribe_virtualwire_digital_broadcast sensor d sub in
  digital_subscribers sub d = (digital_subscribers rt d ++ [sensor])%list
  ∧ (∀ d', d' ≠ d → digital_subscribers sub d' = digital_subscribers rt d')
  ∧ (sensor ∉ digital_subscribers rt d →
       unsub.1 = Some ValueError
       ∧ ∀ d', digital_subscribers unsub.2 d' = digital_subscribers rt d')
  ∧ (sensor ∈ digital_subscribers rt d →
       unsub.1 = None
       ∧ digital_subscribers rt d ≡ₚ sensor :: digital_subscribers unsub.2 d
       ∧ ∀ d', d' ≠ d → digital_subscribers unsub.2 d' = digital_subscribers rt d')
  ∧ (sensor ∉ digital_subscribers rt d →
       both.1 = None
       ∧ ∀ d', digital_subscribers both.2 d' = digital_subscribers rt d').
Proof.
  intros sub unsub both. split_and!.
  - unfold sub. rewrite subscribe_digital_subscribers. by rewrite decide_True.
  - intros d' Hd'. unfold sub. rewrite subscribe_digital_subscribers.
    by rewrite decide_False.
  - intros Hnot. apply list_remove_first_None in Hnot.
    split; [|intros d'].
    + pose proof (unsubscribe_digital_subscribers sensor d d rt) as H.
      rewrite Hnot in H. by destruct H.
    + pose proof (unsubscribe_digital_subscribers sensor d d' rt) as H.
      rewrite Hnot in H. by destruct H.
  - intros Hin.
    destruct (list_remove_first sensor (digital_subscribers rt d)) as [l'|] eqn:Hrem;
      [|by apply list_remove_first_None in Hrem].
    split_and!.
    + pose proof (unsubscribe_digital_subscribers sensor d d rt) as H.
      rewrite Hrem in H. by destruct H.
    + pose proof (unsubscribe_digital_subscribers sensor d d rt) as H.
      rewrite Hrem in H. destruct H as [_ H]. fold unsub in H.
      rewrite H, decide_True by done. by apply list_remove_first_Some.
    + intros d' Hd'.
      pose proof (unsubscribe_digital_subscribers sensor d d' rt) as H.
      rewrite Hrem in H. destruct H as [_ H]. fold unsub in H.
      by rewrite H, decide_False.
  - intros Hnot.
    assert (list_remove_first sensor (digital_subscribers sub d)
            = Some (digital_subscribers rt d)) as Hrem.
    { unfold sub. rewrite subscribe_digital_subscribers, decide_True by done.
      by apply list_remove_first_snoc. }
    split; [|intros d'].
    + pose proof (unsubscribe_digital_subscribers sensor d d sub) as H.
      rewrite Hrem in H. by destruct H.
    + pose proof (unsubscribe_digital_subscribers sensor d d' sub) as H.
      rewrite Hrem in H. destruct H as [_ H]. fold both in H. rewrite H.
      case_decide as Hdd; [by subst|].
      unfold sub. rewrite subscribe_digital_subscribers. by rewrite decide_False.
Qed.

(** ** What the message handlers leave alone *)

Lemma foldl_calls_quiet (f : runtime → VWSensor → runtime) (l : list VWSensor)
    (rt : runtime) :
  (∀ rt s, svc (f rt s) = svc rt ∧ hw (f rt s) = hw rt) →
  svc (foldl f rt l) = svc rt ∧ hw (foldl f rt l) = hw rt.
Proof.
  intros Hf. revert rt. induction l as [|s l IH]; intros rt; simpl; [done|].
  destruct (IH (f rt s)) as [-> ->]. apply Hf.
Qed.

Lemma defaultdict_get_lookup (m : gmap Z (list VWSensor)) (k k' : Z) :
  default [] ((defaultdict_get m k).2 !! k') = default [] (m !! k').
Proof. apply defaultdict_get_default. Qed.

Lemma virtualwire_callback_quiet (sender_address command : Z)
    (data : list Z) (rt : runtime) :
  let r := _virtualwire_message_callback sender_address command data rt in
  hw r.2 = hw rt
  ∧ _board (svc r.2) = _board (svc rt)
  ∧ _act_digital (svc r.2) = _act_digital (svc rt)
  ∧ (r.1 = None ↔ bytearray_ok data = true)
  ∧ (∀ e, r.1 = Some e → e = ValueError).
Proof.
  unfold _virtualwire_message_callback.
  destruct (bytearray_ok data) eqn:Hok; cbn [negb]; cbv iota.
  2:{ simpl. split_and!; try done. by intros e [= <-]. }
  destruct (command =? VIRTUALWIRE_DIGITAL_BROADCAST).
  { destruct data as [|port_nr [|value [|? ?]]]; try (simpl; by split_and!).
    destruct (defaultdict_get _ sender_address) as [sensors m].
    match goal with |- context [foldl ?f ?rt0 sensors] =>
      destruct (foldl_calls_quiet f sensors rt0) as [Hs Hh] end.
    { intros rt0 s. by destruct (port_nr =? sensor_pin s `div` 8). }
    cbn [fst snd]. rewrite Hs, Hh. simpl. by split_and!. }
  destruct (command =? VIRTUALWIRE_ANALOG_BROADCAST).
  { destruct data as [|p [|msb [|lsb [|? ?]]]]; try (simpl; by split_and!).
    destruct (defaultdict_get _ sender_address) as [sensors m].
    match goal with |- context [foldl ?f ?rt0 sensors] =>
      destruct (foldl_calls_quiet f sensors rt0) as [Hs Hh] end.
    { intros rt0 s. by destruct (sensor_pin s =? p). }
    cbn [fst snd]. rewrite Hs, Hh. simpl. by split_and!. }
  simpl. by split_and!.
Qed.

(** X16: whatever message arrives, [_virtualwire_message_callback] sends
    nothing to the board and leaves the board handle and the actuator
    pins of the service as they are; the only exception it can raise is
    the [ValueError] of [bytearray()] on a payload item outside
    [0 .. 255], so it returns normally on every payload of bytes, for
    every command code. *)
Theorem virtualwire_callback_is_passive (sender_address command : Z)
    (data : list Z) (rt : runtime) :
  let r := _virtualwire_message_callback sender_address command data rt in
  hw r.2 = hw rt
  ∧ _board (svc r.2) = _board (svc rt)
  ∧ _act_digital (svc r.2) = _act_digital (svc rt)
  ∧ (r.1 = None ↔ bytearray_ok data = true)
  ∧ (∀ e, r.1 = Some e → e = ValueError).
Proof. apply virtualwire_callback_quiet. Qed.

(** ** A service without a board *)

Lemma lcd_print_lines_mocked (k : nat) (lines : list string) (rt : runtime) :
  _board (svc rt) = None → lcd_print_lines k lines rt = (None, rt).
Proof.
  intros Hb. revert k. induction lines as [|line lines IH]; intros k; [done|].
  simpl. unfold lcd_set_cursor, _lcd_print_raw, unless_no_board. rewrite !Hb.
  apply IH.
Qed.

Lemma run_op_mocked (o : op) (rt : runtime) :
  _board (svc rt) = None →
  hw (run_op o rt).2 = hw rt
  ∧ _board (svc (run_op o rt).2) = None
  ∧ ∀ e, (run_op o rt).1 = Some e → e = ValueError.
Proof.
  intros Hb. destruct o; simpl;
    unfold write, reset, send_virtualwire_command, set_pin_mode, setup_digital,
      setup_pwm, change_digital, cleanup_digital_actuator, configure_sample_rate,
      configure_instant_digital_reporting, configure_virtualwire, configure_lcd,
      configure_analog_reference, lcd_clear, lcd_set_cursor, lcd_set_reporting,
      lcd_set_backlight, unless_no_board;
    rewrite ?Hb; try (simpl; by split_and!).
  - destruct (bytearray_ok data); simpl; split_and!; try done.
    by intros e [= <-].
  - by destruct (analog_reference (svc rt) =? -1).
  - unfold lcd_print.
    assert (lcd_clear rt = rt) as ->
      by (unfold lcd_clear, unless_no_board; by rewrite Hb).
    rewrite lcd_print_lines_mocked by done. by split_and!.
  - unfold subscribe_virtualwire_digital_broadcast.
    destruct (defaultdict_get _ source_device) as [l m]. simpl. by split_and!.
  - unfold unsubscribe_virtualwire_digital_broadcast.
    destruct (defaultdict_get _ source_device) as [l m].
    destruct (list_remove_first sensor l); simpl; split_and!; try done.
    by intros e [= <-].
  - unfold subscribe_virtualwire_analog_broadcast.
    destruct (defaultdict_get _ source_device) as [l m]. simpl. by split_and!.
  - unfold unsubscribe_virtualwire_analog_broadcast.
    destruct (defaultdict_get _ source_device) as [l m].
    destruct (list_remove_first sensor l); simpl; split_and!; try done.
    by intros e [= <-].
  - destruct (virtualwire_callback_quiet sender_address command data rt)
      as (Hh & Hbd & _ & _ & He).
    rewrite Hh, Hbd. by split_and!.
  - unfold _string_data_handler. destruct (decode_ascii (every_second data));
      simpl; split_and!; try done. by intros e [= <-].
Qed.

(** X17: a service without a board stays without one and sends nothing
    to any hardware, whatever sequence of operations is called on it and
    also when some of them raise; the only exception such a service
    raises is [ValueError] (non-byte data for [write], for a message
    handler, or an unsubscription of a sensor that is not subscribed). *)
Theorem mocked_service_stays_quiet (ops : list op) (rt : runtime) :
  _board (svc rt) = None →
  hw (run_ops ops rt).2 = hw rt
  ∧ _board (svc (run_ops ops rt).2) = None
  ∧ Forall (λ e, e = ValueError) (run_ops ops rt).1.
Proof.
  revert rt. induction ops as [|o ops IH]; intros rt Hb; simpl; [by split_and!|].
  destruct (run_op_mocked o rt Hb) as (Hh & Hb' & He).
  destruct (run_op o rt) as [e rt'] eqn:Hrun. simpl in *.
  destruct (IH rt' Hb') as (Hh2 & Hb2 & He2).
  destruct (run_ops ops rt') as [es rt''] eqn:Hrest. simpl in *.
  split_and!; [congruence | done |].
  destruct e as [e|]; [|done]. constructor; [by apply He | done].
Qed.

Lemma mocked_service_stays_quiet_witness :
  let rt := (setup false (inr tt) fresh_runtime).2 in
  let ops := [OpSetupDigital 13 None; OpChangeDigital 13 (SBool true);
              OpLcdPrint "hello"; OpWrite [300]; OpSetPinMode 2 11;
              OpUnsubscribeDigitalBroadcast (mkVWSensor "digi1" 2) 1;
              OpVirtualwireMessage 1 VIRTUALWIRE_DIGITAL_BROADCAST [0; 4];
              OpSendVirtualwireCommand 2 5 [ArgInt 13; ArgInt 1]] in
  hw (run_ops ops rt).2 = hw rt
  ∧ _board (svc (run_ops ops rt).2) = None
  ∧ Forall (λ e, e = ValueError) (run_ops ops rt).1.
Proof.
  intros rt ops. refine (mocked_service_stays_quiet ops rt _). reflexivity.
Defined.

(** ** Actuator pins with a board *)

(** X18: with a board, [change_digital] raises [KeyError] exactly for a
    pin without an entry, raises [AttributeError] exactly for a pin whose
    entry was made while there was no board, and otherwise writes the
    value to the pin. [setup_digital] and [setup_pwm] make the entry when
    the board hands out the pin, and [change_digital] then writes; when
    the board refuses the pin they raise its exception and leave the
    entries as they were. After [cleanup_digital_actuator] the pin has no
    entry, and [change_digital] raises [KeyError]. *)
Theorem change_digital_needs_setup (pin_nr : Z) (value : StatusValue)
    (rt : runtime) (b : unit) :
  _board (svc rt) = Some b →
  ((change_digital pin_nr value rt).1 = Some KeyError
   ↔ _act_digital (svc rt) !! pin_nr = None)
  ∧ ((change_digital pin_nr value rt).1 = Some AttributeError
     ↔ ∃ t, _act_digital (svc rt) !! pin_nr = Some (mkPinTuple t None))
  ∧ ((change_digital pin_nr value rt).1 = None
     ↔ ∃ t p, _act_digital (svc rt) !! pin_nr = Some (mkPinTuple t (Some p)))
  ∧ ((change_digital pin_nr value rt).1 = None →
     hw (change_digital pin_nr value rt).2 = (hw rt ++ [PinWrite pin_nr value])%list)
  ∧ (∀ setup_pin, setup_pin = setup_digital ∨ setup_pin = setup_pwm →
       ((setup_pin pin_nr None rt).1 = None
        ∧ change_digital pin_nr value (setup_pin pin_nr None rt).2
          = (None, send (PinWrite pin_nr value) (setup_pin pin_nr None rt).2))
       ∧ (∀ e, (setup_pin pin_nr (Some e) rt).1 = Some e
               ∧ _act_digital (svc (setup_pin pin_nr (Some e) rt).2)
                 = _act_digital (svc rt)
               ∧ (change_digital pin_nr value (setup_pin pin_nr (Some e) rt).2).1
                 = (change_digital pin_nr value rt).1))
  ∧ (change_digital pin_nr value (cleanup_digital_actuator pin_nr rt)).1
    = Some KeyError.
Proof.
  intros Hb. split_and!.
  - unfold change_digital. rewrite Hb.
    destruct (_act_digital (svc rt) !! pin_nr) as [[t [p|]]|]; simpl; split; done.
  - unfold change_digital. rewrite Hb.
    destruct (_act_digital (svc rt) !! pin_nr) as [[t [p|]]|]; simpl;
      (split; [intros H; try done; by eexists | intros [? H]; by simplify_eq]).
  - unfold change_digital. rewrite Hb.
    destruct (_act_digital (svc rt) !! pin_nr) as [[t [p|]]|]; simpl;
      (split; [intros H; try done; by do 2 eexists
              | intros (? & ? & H); by simplify_eq]).
  - unfold change_digital. rewrite Hb.
    by destruct (_act_digital (svc rt) !! pin_nr) as [[t [p|]]|].
  - intros setup_pin [-> | ->]; (split; [|intros e]).
    + unfold change_digital, setup_digital. rewrite Hb. simpl. rewrite Hb.
      by rewrite lookup_insert_eq.
    + unfold change_digital, setup_digital. rewrite Hb. simpl. rewrite ?Hb.
      split_and!; try done;
        by destruct (_act_digital (svc rt) !! pin_nr) as [[t [p|]]|].
    + unfold change_digital, setup_pwm. rewrite Hb. simpl. rewrite Hb.
      by rewrite lookup_insert_eq.
    + unfold change_digital, setup_pwm. rewrite Hb. simpl. rewrite ?Hb.
      split_and!; try done;
        by destruct (_act_digital (svc rt) !! pin_nr) as [[t [p|]]|].
  - unfold change_digital, cleanup_digital_actuator.
    simpl. rewrite Hb. by rewrite lookup_delete_eq.
Qed.

Lemma change_digital_needs_setup_witness :
  let rt := (setup true (inr tt) fresh_runtime).2 in
  let pin_nr := 9 in
  let value := SBool true in
  ((change_digital pin_nr value rt).1 = Some KeyError
   ↔ _act_digital (svc rt) !! pin_nr = None)
  ∧ ((change_digital pin_nr value rt).1 = Some AttributeError
     ↔ ∃ t, _act_digital (svc rt) !! pin_nr = Some (mkPinTuple t None))
  ∧ ((change_digital pin_nr value rt).1 = None
     ↔ ∃ t p, _act_digital (svc rt) !! pin_nr = Some (mkPinTuple t (Some p)))
  ∧ ((change_digital pin_nr value rt).1 = None →
     hw (change_digital pin_nr value rt).2 = (hw rt ++ [PinWrite pin_nr value])%list)
  ∧ (∀ setup_pin, setup_pin = setup_digital ∨ setup_pin = setup_pwm →
       ((setup_pin pin_nr None rt).1 = None
        ∧ change_digital pin_nr value (setup_pin pin_nr None rt).2
          = (None, send (PinWrite pin_nr value) (setup_pin pin_nr None rt).2))
       ∧ (∀ e, (setup_pin pin_nr (Some e) rt).1 = Some e
               ∧ _act_digital (svc (setup_pin pin_nr (Some e) rt).2)
                 = _act_digital (svc rt)
               ∧ (change_digital pin_nr value (setup_pin pin_nr (Some e) rt).2).1
                 = (change_digital pin_nr value rt).1))
  ∧ (change_digital pin_nr value (cleanup_digital_actuator pin_nr rt)).1
    = Some KeyError.
Proof.
  intros rt pin_nr value.
  refine (change_digital_needs_setup pin_nr value rt tt _).
  reflexivity.
Defined.

(** A board that refuses pin 13 for PWM, and a pin set up while the
    service had no board. *)
Example refused_pin_is_not_registered :
  let rt := (setup true (inr tt) fresh_runtime).2 in
  (setup_pwm 13 (Some (OSError 5)) rt).1 = Some (OSError 5)
  ∧ (change_digital 13 (SBool true) (setup_pwm 13 (Some (OSError 5)) rt).2).1
    = Some KeyError
  ∧ (change_digital 13 (SBool true)
       (with_svc (set_board (Some tt) false)
          (setup_digital 13 None fresh_runtime).2)).1
    = Some AttributeError.
Proof. split_and!; reflexivity. Qed.

(** ** Printing on the LCD *)

Lemma split_newline_nonempty (value : string) : split_newline value ≠ [].
Proof.
  destruct value as [|c rest]; simpl; [done|].
  destruct (Ascii.eqb c "010"); [done|]. by destruct (split_newline rest).
Qed.

(** [split_newline] cuts at the newlines and nowhere else. *)
Lemma split_newline_join (value : string) :
  Stdlib.Strings.String.concat (String "010" EmptyString) (split_newline value)
  = value.
Proof.
  induction value as [|c rest IH]; [done|]. simpl.
  pose proof (split_newline_nonempty rest) as Hne.
  destruct (Ascii.eqb_spec c "010") as [->|Hc];
    destruct (split_newline rest) as [|l ls]; try done.
  - simpl in *. by rewrite IH.
  - destruct ls; simpl in *; by rewrite <-IH.
Qed.

Lemma lcd_line_messages_cons (k : nat) (line : string) (lines : list string) :
  lcd_line_messages k (line :: lines)
  = ([SendSysex SYSEX_LCD_COMMAND [LCD_SET_CURSOR; 0; Z.of_nat k];
      SendSysex SYSEX_LCD_COMMAND ([LCD_PRINT] ++ utf8_bytes line ++ [0])]
     ++ lcd_line_messages (S k) lines)%list.
Proof.
  unfold lcd_line_messages. rewrite imap_cons. simpl. rewrite Nat.add_0_r.
  do 2 f_equal. f_equal. apply imap_ext. intros i x _. simpl.
  by rewrite Nat.add_succ_r.
Qed.

Lemma lcd_print_lines_board (lines : list string) (k : nat) (rt : runtime) (b : unit) :
  _board (svc rt) = Some b →
  (k ≤ 256)%nat →
  (lcd_print_lines k lines rt).1
  = (if decide (k + length lines ≤ 256)%nat then None else Some ValueError)
  ∧ hw (lcd_print_lines k lines rt).2
    = (hw rt ++ lcd_line_messages k (take (256 - k) lines))%list.
Proof.
  revert k rt. induction lines as [|line lines IH]; intros k rt Hb Hk.
  - simpl. rewrite decide_True by lia. rewrite take_nil.
    unfold lcd_line_messages. simpl. by rewrite app_nil_r.
  - simpl. unfold lcd_set_cursor. rewrite Hb.
    destruct (decide (k = 256)%nat) as [->|Hne].
    + simpl. split; [done|]. unfold lcd_line_messages. simpl.
      by rewrite app_nil_r.
    + assert (bytearray_ok [LCD_SET_CURSOR; 0; Z.of_nat k] = true) as ->.
      { unfold bytearray_ok, is_byte. simpl.
        rewrite (proj2 (Z.leb_le 0 (Z.of_nat k))) by lia.
        by rewrite (proj2 (Z.ltb_lt (Z.of_nat k) 256)) by lia. }
      cbn [negb]. cbv iota.
      unfold _lcd_print_raw, unless_no_board. simpl. rewrite Hb.
      match goal with |- context [lcd_print_lines (S k) lines ?rt0] =>
        destruct (IH (S k) rt0) as [-> ->]; [done | lia |] end.
      simpl. split.
      * repeat case_decide; try done; lia.
      * replace (256 - k)%nat with (S (256 - S k)) by lia.
        rewrite firstn_cons, lcd_line_messages_cons. by rewrite <-!app_assoc.
Qed.

(** X19: with a board, [lcd_print] clears the display and then, for each
    line of the text in turn, sets the cursor to column 0 of the row with
    the number of the line and prints the line; it can address 256 rows:
    a text of more lines has its first 256 lines printed and then ends in
    the [ValueError] of [bytearray()]. *)
Theorem lcd_print_rows (value : string) (rt : runtime) (b : unit) :
  _board (svc rt) = Some b →
  let lines := split_newline value in
  (lcd_print value rt).1
  = (if decide (length lines ≤ 256)%nat then None else Some ValueError)
  ∧ hw (lcd_print value rt).2
    = (hw rt ++ SendSysex SYSEX_LCD_COMMAND [LCD_CLEAR]
              :: lcd_line_messages 0 (take 256 lines))%list.
Proof.
  intros Hb lines. unfold lcd_print. fold lines.
  destruct (lcd_print_lines_board lines 0 (lcd_clear rt) b) as [-> ->].
  - unfold lcd_clear, unless_no_board. by rewrite Hb.
  - lia.
  - unfold lcd_clear, unless_no_board. rewrite Hb. simpl.
    split; [done|]. by rewrite <-app_assoc.
Qed.

Lemma lcd_print_rows_witness :
  let rt := with_svc (set_board (Some tt) false) fresh_runtime in
  let value := String "H" (String "i" (String "010" "you")) in
  let lines := split_newline value in
  (lcd_print value rt).1
  = (if decide (length lines ≤ 256)%nat then None else Some ValueError)
  ∧ hw (lcd_print value rt).2
    = (hw rt ++ SendSysex SYSEX_LCD_COMMAND [LCD_CLEAR]
              :: lcd_line_messages 0 (take 256 lines))%list.
Proof.
  intros rt value.
  refine (lcd_print_rows value rt tt _). reflexivity.
Defined.

Example lcd_print_two_lines :
  hw (lcd_print (String "H" (String "i" (String "010" "you")))
        (with_svc (set_board (Some tt) false) fresh_runtime)).2
  = [SendSysex 4 [3];
     SendSysex 4 [4; 0; 0]; SendSysex 4 [2; 72; 105; 0];
     SendSysex 4 [4; 0; 1]; SendSysex 4 [2; 121; 111; 117; 0]].
Proof. reflexivity. Qed.

(** ** String data *)

Lemma every_second_firmata (bytes : list Z) :
  Forall (λ x, 0 ≤ x < 128) bytes →
  every_second (flat_map (λ x, [x `mod` 128; Z.shiftr x 7]) bytes) = bytes.
Proof.
  induction 1 as [|x bytes Hx _ IH]; [done|].
  simpl. rewrite IH. by rewrite Z.mod_small.
Qed.

Lemma utf8_bytes_range (text : string) :
  Forall (λ x, 0 ≤ x < 256) (utf8_bytes text).
Proof.
  unfold utf8_bytes. apply Forall_fmap, Forall_forall. intros c _. simpl.
  pose proof (N_ascii_bounded c). lia.
Qed.

Lemma decode_ascii_utf8_bytes (text : string) :
  Forall (λ x, x < 128) (utf8_bytes text) →
  decode_ascii (utf8_bytes text) = Some text.
Proof.
  intros Hascii. unfold decode_ascii.
  assert (forallb (λ x, (0 <=? x) && (x <? 128)) (utf8_bytes text) = true) as ->.
  { apply forallb_forall. intros x Hx%list_elem_of_In.
    pose proof (proj1 (Forall_forall _ _) Hascii x Hx).
    pose proof (proj1 (Forall_forall _ _) (utf8_bytes_range text) x Hx).
    simpl in *. apply andb_true_iff. split; [apply Z.leb_le | apply Z.ltb_lt]; lia. }
  f_equal. unfold utf8_bytes. rewrite <-list_fmap_compose.
  rewrite <-(Stdlib.Strings.String.string_of_list_ascii_of_string text) at 2.
  f_equal. rewrite <-(list_fmap_id (Stdlib.Strings.String.list_ascii_of_string text)) at 2.
  apply list_fmap_ext. intros _ c _. simpl.
  by rewrite N2Z.id, ascii_N_embedding.
Qed.

(** X20: a Firmata string message for an ASCII text (every character
    followed by its high part) is logged with that text, the padding
    dropped: as an error when the text starts with [E:], as a warning
    when it starts with [W:], at debug level otherwise; nothing else
    changes. *)
Theorem string_data_logged (text : string) (rt : runtime) :
  Forall (λ x, x < 128) (utf8_bytes text) →
  _string_data_handler (firmata_string text) rt
  = (None,
     logger ((if Stdlib.Strings.String.prefix "E:" text then Error
              else if Stdlib.Strings.String.prefix "W:" text then Warning
              else Debug) ("String data: " +:+ text)) rt).
Proof.
  intros Hascii. unfold _string_data_handler, firmata_string.
  rewrite every_second_firmata.
  - by rewrite decode_ascii_utf8_bytes.
  - apply Forall_forall. intros x Hx.
    pose proof (proj1 (Forall_forall _ _) Hascii x Hx).
    pose proof (proj1 (Forall_forall _ _) (utf8_bytes_range text) x Hx).
    simpl in *. lia.
Qed.

Lemma string_data_logged_witness :
  _string_data_handler (firmata_string "E: no radio") fresh_runtime
  = (None,
     logger ((if Stdlib.Strings.String.prefix "E:" "E: no radio" then Error
              else if Stdlib.Strings.String.prefix "W:" "E: no radio" then Warning
              else Debug) ("String data: " +:+ "E: no radio")) fresh_runtime).
Proof.
  refine (string_data_logged "E: no radio" fresh_runtime _).
  apply (proj2 (Forall_forall _ _)). intros x Hx.
  apply list_elem_of_In in Hx. vm_compute in Hx.
  repeat (destruct Hx as [<-|Hx]; [reflexivity|]). destruct Hx.
Defined.

Example string_data_error_level :
  logs (_string_data_handler [69; 0; 58; 0; 120; 0] fresh_runtime).2
  = [Error "String data: E:x"].
Proof. reflexivity. Qed.

End ArduinoWire.
